(** * BIM IFC API: a shallow embedding of [backend/main.py]

    The service keeps opened IFC models in a process-wide dictionary
    ([ifc_files]), answers point queries for one element by its GlobalId,
    and evicts models on request.

    The IFC engine (ifcopenshell), the operating system (temporary
    files) and the web framework are outside the repository.  They
    appear here through what the handlers observe of them:
    - an engine object is the outcome of each read the handlers make of
      it, and every read can raise;
    - the disk is a dictionary from paths to files;
    - the random draws of [uuid] and [tempfile] are arguments;
    - a handler that returns is a 200 response with what it returned,
      and a raised [HTTPException] is the response with its status code.
    Names and keys are strings, as the response model declares them.
    What the handlers print is not part of the model. *)

From Stdlib Require Import String Ascii List Bool Arith Lia QArith DecimalString.
From Stdlib.Strings Require Import Byte.
From ExtLib Require Import Structures.Monad.
Import ListNotations.
Import MonadNotation.
Local Close Scope Q_scope.
Local Close Scope Z_scope.
Local Open Scope string_scope.
Local Open Scope monad_scope.

(** ** Exceptions *)

(** The exceptions the handlers tell apart: [AttributeError] (what
    [hasattr] turns into [False]), [HTTPException] (re-raised untouched by
    the query handler) and every other subclass of [Exception], of which
    only the text matters. *)
Inductive pyexc : Type :=
| AttributeError (msg : string)
| HTTPException (status_code : nat) (detail : string)
| PyError (msg : string).

Definition str_of_nat (n : nat) : string :=
  NilZero.string_of_uint (Nat.to_uint n).

(** [str(e)]; Starlette prints an [HTTPException] as "status: detail". *)
Definition str (e : pyexc) : string :=
  match e with
  | AttributeError msg => msg
  | HTTPException status_code detail => str_of_nat status_code ++ ": " ++ detail
  | PyError msg => msg
  end.


(** A computation that returns or raises. *)
Inductive exc (A : Type) : Type :=
| Ok (a : A)
| Raise (e : pyexc).
Arguments Ok {A} a.
Arguments Raise {A} e.

#[global] Instance Monad_exc : Monad exc :=
  {| ret := fun A a => Ok a;
     bind := fun A B c k => match c with Ok a => k a | Raise e => Raise e end |}.

(** [hasattr(obj, name)]: the attribute is read; an [AttributeError] is
    [False], any other exception propagates. *)
Definition hasattr {A : Type} (attribute : exc A) : exc bool :=
  match attribute with
  | Ok _ => Ok true
  | Raise (AttributeError _) => Ok false
  | Raise e => Raise e
  end.

(** [obj.name if hasattr(obj, name) else default]. *)
Definition getattr_or {A : Type} (attribute : exc A) (default : A) : exc A :=
  b <- hasattr attribute ;;
  if (b : bool) then attribute else ret default.

(** A [for] loop threading the variables it assigns; an exception in
    the body leaves the loop. *)
Fixpoint for_in {A S : Type} (l : list A) (body : S -> A -> exc S) (s : S) : exc S :=
  match l with
  | [] => Ok s
  | x :: l' =>
      match body s x with
      | Ok s' => for_in l' body s'
      | Raise e => Raise e
      end
  end.

(** ** Dictionaries with string keys, in insertion order *)

Module Dict.

Definition t (V : Type) : Type := list (string * V).

Definition empty {V : Type} : t V := [].

Fixpoint get {V : Type} (k : string) (d : t V) : option V :=
  match d with
  | [] => None
  | (k', v) :: d' => if String.eqb k k' then Some v else get k d'
  end.

(** [k in d] *)
Definition mem {V : Type} (k : string) (d : t V) : bool :=
  match get k d with Some _ => true | None => false end.

(** [d[k]], a [KeyError] when the key is missing *)
Definition subscript {V : Type} (k : string) (d : t V) : exc V :=
  match get k d with
  | Some v => Ok v
  | None => Raise (PyError ("'" ++ k ++ "'"))
  end.

(** [d[k] = v]: an existing key keeps its place, a new one goes last *)
Fixpoint set {V : Type} (k : string) (v : V) (d : t V) : t V :=
  match d with
  | [] => [(k, v)]
  | (k', v') :: d' =>
      if String.eqb k k' then (k, v) :: d' else (k', v') :: set k v d'
  end.

(** [del d[k]] on a present key *)
Fixpoint del {V : Type} (k : string) (d : t V) : t V :=
  match d with
  | [] => []
  | (k', v') :: d' =>
      if String.eqb k k' then del k d' else (k', v') :: del k d'
  end.

(** truth value of a dictionary: non-empty *)
Definition truthy {V : Type} (d : t V) : bool :=
  match d with [] => false | _ :: _ => true end.

Definition items {V : Type} (d : t V) : list (string * V) := d.

End Dict.

(** ** Values ([Any] in the response model) *)

#[warnings="-register-all"]
Inductive pyval : Type :=
| PNone
| PBool (b : bool)
| PInt (z : Z)
| PFloat (q : Q)
| PStr (s : string)
| PList (l : list pyval)
| PDict (d : list (string * pyval)).

(** ** What the handlers see of the IFC engine *)

(** A physical quantity.  Reading an attribute its entity type does
    not have raises [AttributeError]; its name is the key it is filed
    under. *)
Record quantity : Type := {
  quantity_Name : exc string;
  LengthValue : exc pyval;
  AreaValue : exc pyval;
  VolumeValue : exc pyval
}.

(** The object behind [rel.RelatingPropertyDefinition]. *)
Record property_definition : Type := {
  prop_def_is_a : string -> exc bool;
  Quantities : exc (list quantity)
}.

(** A member of [element.IsDefinedBy]. *)
Record relationship : Type := {
  rel_is_a : string -> exc bool;
  RelatingPropertyDefinition : exc property_definition
}.

(** An entity instance handed out by [by_guid] or [by_type].
    [get_psets] is the outcome of
    [ifcopenshell.util.element.get_psets] on it; an attribute that is
    there but not iterable is an attribute whose read raises. *)
Record entity : Type := {
  GlobalId : exc string;
  Name : exc (option string);
  is_a : exc string;
  ObjectType : exc pyval;
  Tag : exc pyval;
  Description : exc pyval;
  IsDefinedBy : exc (list relationship);
  get_psets : exc (Dict.t (Dict.t pyval))
}.

(** An opened model. [by_guid] hands back an entity, or nothing. *)
Record ifc_file : Type := {
  by_guid : string -> exc (option entity);
  by_type : string -> exc (list entity)
}.

(** ** Requests, responses and the state of the process *)

Record GUIDRequest : Type := { model_id : string; guid : string }.

Record ElementResponse : Type := {
  el_guid : string;
  el_name : option string;
  el_type : string;
  properties : Dict.t pyval;
  psets : Dict.t (Dict.t pyval)
}.

Record UploadFile : Type := {
  upload_filename : option string;
  upload_content : list byte
}.

Record UploadResponse : Type := {
  up_model_id : string;
  up_filename : option string;
  project_name : option string;
  total_elements : nat;
  up_message : string
}.

Record MessageResponse : Type := { message : string }.

Record ModelItem : Type := {
  item_model_id : string;
  item_filename : option string
}.

Record ModelsResponse : Type := { models : list ModelItem }.

(** The outcome of a handler as the client sees it. *)
Inductive response (A : Type) : Type :=
| Ok200 (body : A)
| HTTPError (status_code : nat) (detail : string).
Arguments Ok200 {A} body.
Arguments HTTPError {A} status_code detail.

Definition status {A : Type} (r : response A) : nat :=
  match r with Ok200 _ => 200 | HTTPError status_code _ => status_code end.

(** A value of [ifc_files]. *)
Record ModelEntry : Type := {
  file : ifc_file;
  path : string;
  filename : option string
}.

(** A file on disk: its bytes, and whether unlinking it is refused. *)
Record fnode : Type := {
  data : list byte;
  unlink_refused : bool
}.

Record world : Type := {
  ifc_files : Dict.t ModelEntry;
  disk : Dict.t fnode
}.

(** Statements run against the process state; what was written before
    an exception stays written. *)
Definition M (A : Type) : Type := world -> exc A * world.

#[global] Instance Monad_M : Monad M :=
  {| ret := fun A a w => (Ok a, w);
     bind := fun A B c k w =>
       match c w with
       | (Ok a, w') => k a w'
       | (Raise e, w') => (Raise e, w')
       end |}.

Definition lift {A : Type} (c : exc A) : M A := fun w => (c, w).

(** [try: body  except Exception as e: raise HTTPException(500, prefix + str(e))] *)
Definition try_except_500 {A : Type} (prefix : string) (body : M A)
  : world -> response A * world :=
  fun w =>
    match body w with
    | (Ok a, w') => (Ok200 a, w')
    | (Raise e, w') => (HTTPError 500 (prefix ++ str e), w')
    end.

(** ** The operating system *)

(** [os.path.exists(p)] *)
Definition os_path_exists (p : string) : M bool :=
  fun w => (Ok (Dict.mem p (disk w)), w).

(** [os.remove(p)]: raises when the file is missing or may not be
    unlinked, and then leaves the disk as it was. *)
Definition os_remove (p : string) : M unit :=
  fun w =>
    match Dict.get p (disk w) with
    | None =>
        (Raise (PyError ("[Errno 2] No such file or directory: '" ++ p ++ "'")), w)
    | Some node =>
        if unlink_refused node
        then (Raise (PyError ("[Errno 13] Permission denied: '" ++ p ++ "'")), w)
        else (Ok tt, {| ifc_files := ifc_files w; disk := Dict.del p (disk w) |})
    end.

(** The name [tempfile] settles on: the first candidate that is not
    taken; it gives up when the candidates run out. *)
Fixpoint unused_name (candidates : list string) (suffix : string)
    (d : Dict.t fnode) : exc string :=
  match candidates with
  | [] => Raise (PyError "[Errno 17] No usable temporary file name found")
  | c :: candidates' =>
      let p := "/tmp/tmp" ++ c ++ suffix in
      if Dict.mem p d then unused_name candidates' suffix d else Ok p
  end.

Definition write_file (p : string) (content : list byte) : M unit :=
  fun w =>
    (Ok tt,
     {| ifc_files := ifc_files w;
        disk := Dict.set p {| data := content; unlink_refused := false |} (disk w) |}).

(** [with tempfile.NamedTemporaryFile(delete=False, suffix=...) as tmp_file:
       tmp_file.write(content); tmp_path = tmp_file.name]
    [candidates] are the random names the module draws. *)
Definition NamedTemporaryFile (candidates : list string) (suffix : string)
    (content : list byte) : M string :=
  fun w =>
    match unused_name candidates suffix (disk w) with
    | Raise e => (Raise e, w)
    | Ok tmp_path => (write_file tmp_path content ;; ret tmp_path) w
    end.

(** ** The engine opening a path *)

(** [ifcopenshell.open(p)]: [parse] is the engine's judgment on the
    bytes found at [p]. *)
Definition ifcopenshell_open (parse : list byte -> exc ifc_file) (p : string) : M ifc_file :=
  fun w =>
    match Dict.get p (disk w) with
    | None => (Raise (PyError ("[Errno 2] No such file or directory: '" ++ p ++ "'")), w)
    | Some node => (parse (data node), w)
    end.

(** ** [ifc_files] *)

Definition ifc_files_setitem (k : string) (v : ModelEntry) : M unit :=
  fun w => (Ok tt, {| ifc_files := Dict.set k v (ifc_files w); disk := disk w |}).

Definition ifc_files_getitem (k : string) : M ModelEntry :=
  fun w => (Dict.subscript k (ifc_files w), w).

Definition ifc_files_delitem (k : string) : M unit :=
  fun w =>
    match Dict.get k (ifc_files w) with
    | None => (Raise (PyError ("'" ++ k ++ "'")), w)
    | Some _ => (Ok tt, {| ifc_files := Dict.del k (ifc_files w); disk := disk w |})
    end.

(** ** POST /upload-ifc *)

(** [uuid4] is the identifier [uuid.uuid4()] draws and [candidates] the
    names [tempfile] draws for this request. *)
Definition upload_ifc (parse : list byte -> exc ifc_file)
    (uuid4 : string) (candidates : list string) (file_ : UploadFile)
  : world -> response UploadResponse * world :=
  try_except_500 "Error processing IFC: "
    (let model_id := uuid4 in
     tmp_path <- NamedTemporaryFile candidates ".ifc" (upload_content file_) ;;
     ifc_file <- ifcopenshell_open parse tmp_path ;;
     ifc_files_setitem model_id
       {| file := ifc_file; path := tmp_path; filename := upload_filename file_ |} ;;
     projects <- lift (by_type ifc_file "IfcProject") ;;
     project <- match projects with
                | [] => ret None
                | _ :: _ =>
                    projects' <- lift (by_type ifc_file "IfcProject") ;;
                    match projects' with
                    | p :: _ => ret (Some p)
                    | [] => lift (Raise (PyError "list index out of range"))
                    end
                end ;;
     name <- match project with
             | Some p => lift (Name p)
             | None => ret (Some "Unknown")
             end ;;
     products <- lift (by_type ifc_file "IfcProduct") ;;
     ret {| up_model_id := model_id;
            up_filename := upload_filename file_;
            project_name := name;
            total_elements := length products;
            up_message := "IFC file uploaded successfully" |}).

(** ** POST /get-element-by-guid *)

(** The three fixed attributes, lines 105-109. *)
Definition read_properties (element : entity) : exc (Dict.t pyval) :=
  object_type <- getattr_or (ObjectType element) PNone ;;
  tag <- getattr_or (Tag element) PNone ;;
  description <- getattr_or (Description element) PNone ;;
  ret (Dict.set "Description" description
         (Dict.set "Tag" tag
            (Dict.set "ObjectType" object_type Dict.empty))).

(** [{"value": v, "unit": u}] *)
Definition value_unit (v : pyval) (u : string) : pyval :=
  PDict [("value", v); ("unit", PStr u)].

(** The body of the innermost loop, lines 128-142.  The value is read
    before the name, as the right-hand side of an assignment is. *)
Definition record_quantity (quantities : Dict.t pyval) (q : quantity)
  : exc (Dict.t pyval) :=
  has_length <- hasattr (LengthValue q) ;;
  if (has_length : bool) then
    v <- LengthValue q ;; n <- quantity_Name q ;;
    ret (Dict.set n (value_unit v "m") quantities)
  else
    has_area <- hasattr (AreaValue q) ;;
    if (has_area : bool) then
      v <- AreaValue q ;; n <- quantity_Name q ;;
      ret (Dict.set n (value_unit v "m²") quantities)
    else
      has_volume <- hasattr (VolumeValue q) ;;
      if (has_volume : bool) then
        v <- VolumeValue q ;; n <- quantity_Name q ;;
        ret (Dict.set n (value_unit v "m³") quantities)
      else ret quantities.

(** The body of the loop over [element.IsDefinedBy], lines 124-142. *)
Definition visit_relationship (quantities : Dict.t pyval) (rel : relationship)
  : exc (Dict.t pyval) :=
  by_properties <- rel_is_a rel "IfcRelDefinesByProperties" ;;
  if (by_properties : bool) then
    prop_def <- RelatingPropertyDefinition rel ;;
    is_quantity_set <- prop_def_is_a prop_def "IfcElementQuantity" ;;
    if (is_quantity_set : bool) then
      qs <- Quantities prop_def ;;
      for_in qs record_quantity quantities
    else ret quantities
  else ret quantities.

(** Lines 122-142: [quantities] when the loops are through. *)
Definition collect_quantities (element : entity) : exc (Dict.t pyval) :=
  rels <- IsDefinedBy element ;;
  for_in rels visit_relationship Dict.empty.

Definition with_properties (element_data : ElementResponse) (p : Dict.t pyval)
  : ElementResponse :=
  {| el_guid := el_guid element_data; el_name := el_name element_data;
     el_type := el_type element_data; properties := p;
     psets := psets element_data |}.

Definition with_psets (element_data : ElementResponse) (p : Dict.t (Dict.t pyval))
  : ElementResponse :=
  {| el_guid := el_guid element_data; el_name := el_name element_data;
     el_type := el_type element_data; properties := properties element_data;
     psets := p |}.

(** Lines 95-150: the view of an element that was found. *)
Definition project_element (element : entity) : exc ElementResponse :=
  g <- GlobalId element ;;
  n <- getattr_or (Name element) None ;;
  t <- is_a element ;;
  let element_data :=
    {| el_guid := g; el_name := n; el_type := t;
       properties := Dict.empty; psets := Dict.empty |} in
  let element_data :=
    match read_properties element with
    | Ok p => with_properties element_data p
    | Raise _ => element_data
    end in
  let element_data :=
    match get_psets element with
    | Ok p => with_psets element_data p
    | Raise _ => element_data
    end in
  let element_data :=
    match collect_quantities element with
    | Ok quantities =>
        if Dict.truthy quantities
        then with_psets element_data
               (Dict.set "Quantities" quantities (psets element_data))
        else element_data
    | Raise _ => element_data
    end in
  ret element_data.

Definition get_element_by_guid (request : GUIDRequest) (w : world)
  : response ElementResponse :=
  if negb (Dict.mem (model_id request) (ifc_files w))
  then HTTPError 404 "Model not found"
  else
    match
      (entry <- Dict.subscript (model_id request) (ifc_files w) ;;
       element <- by_guid (file entry) (guid request) ;;
       match element with
       | None =>
           Raise (HTTPException 404
                    ("Element with GUID " ++ guid request ++ " not found"))
       | Some element => project_element element
       end)
    with
    | Ok element_data => Ok200 element_data
    | Raise (HTTPException status_code detail) => HTTPError status_code detail
    | Raise e => HTTPError 500 ("Error retrieving element: " ++ str e)
    end.

(** ** DELETE /remove-model/{model_id} *)

Definition remove_model (model_id : string)
  : world -> response MessageResponse * world :=
  fun w =>
    if negb (Dict.mem model_id (ifc_files w))
    then (HTTPError 404 "Model not found", w)
    else
      try_except_500 "Error removing model: "
        (entry <- ifc_files_getitem model_id ;;
         let tmp_path := path entry in
         present <- os_path_exists tmp_path ;;
         (if (present : bool) then os_remove tmp_path else ret tt) ;;
         ifc_files_delitem model_id ;;
         ret {| message := "Model removed successfully" |}) w.

(** ** GET /models *)

Definition list_models (w : world) : response ModelsResponse :=
  Ok200
    {| models :=
         map (fun '(model_id, data) =>
                {| item_model_id := model_id; item_filename := filename data |})
             (Dict.items (ifc_files w)) |}.

(** ** A client talking to the service *)

Inductive request : Type :=
| Upload (uuid4 : string) (candidates : list string) (file_ : UploadFile)
| Query (r : GUIDRequest)
| Remove (model_id : string)
| ListModels.

(** The state after one request. *)
Definition serve (parse : list byte -> exc ifc_file) (r : request) (w : world) : world :=
  match r with
  | Upload uuid4 candidates file_ => snd (upload_ifc parse uuid4 candidates file_ w)
  | Query _ => w
  | Remove model_id => snd (remove_model model_id w)
  | ListModels => w
  end.

Definition serve_all (parse : list byte -> exc ifc_file) (rs : list request) (w : world)
  : world :=
  fold_left (fun w r => serve parse r w) rs w.

Definition draws (model_id : string) (r : request) : bool :=
  match r with
  | Upload uuid4 _ _ => String.eqb uuid4 model_id
  | _ => false
  end.

(** ** The vocabulary of the specification *)

(** The attribute is not there: reading it is an [AttributeError]. *)
Definition lacks {A : Type} (attribute : exc A) : Prop :=
  exists msg, attribute = Raise (AttributeError msg).

(** The unit a quantity is given: by the first of length, area and
    volume it carries. *)
Definition unit_for (q : quantity) (v : pyval) (u : string) : Prop :=
  (LengthValue q = Ok v /\ u = "m")
  \/ (lacks (LengthValue q) /\ AreaValue q = Ok v /\ u = "m²")
  \/ (lacks (LengthValue q) /\ lacks (AreaValue q)
      /\ VolumeValue q = Ok v /\ u = "m³").

(** The quantity carries none of the three value-kinds. *)
Definition carries_none (q : quantity) : Prop :=
  (forall v, LengthValue q <> Ok v)
  /\ (forall v, AreaValue q <> Ok v)
  /\ (forall v, VolumeValue q <> Ok v).

(** The quantities behind [rel]: those of its property definition when
    the relationship defines by properties and the definition is an
    element quantity. *)
Definition behind (rel : relationship) (q : quantity) : Prop :=
  exists prop_def qs,
    rel_is_a rel "IfcRelDefinesByProperties" = Ok true
    /\ RelatingPropertyDefinition rel = Ok prop_def
    /\ prop_def_is_a prop_def "IfcElementQuantity" = Ok true
    /\ Quantities prop_def = Ok qs
    /\ In q qs.

(** The quantities reached through the element's defining relationships. *)
Definition reached (element : entity) (q : quantity) : Prop :=
  exists rels rel,
    IsDefinedBy element = Ok rels /\ In rel rels /\ behind rel q.

(** What [quantities] holds once the quantities in [seen] went through
    the loop: every entry is the value and unit of a quantity of that
    name, and every quantity that has a unit has its name in it. *)
Definition recorded (seen : quantity -> Prop) (quantities : Dict.t pyval) : Prop :=
  (forall n x, Dict.get n quantities = Some x ->
     exists q v u,
       seen q /\ quantity_Name q = Ok n /\ unit_for q v u /\ x = value_unit v u)
  /\ (forall q v u, seen q -> unit_for q v u ->
       exists n x, quantity_Name q = Ok n /\ Dict.get n quantities = Some x).

(** A block that failed counts for an empty mapping. *)
Definition or_empty {V : Type} (block : exc (Dict.t V)) : Dict.t V :=
  match block with Ok d => d | Raise _ => Dict.empty end.

(** The quantities mapping going under its reserved name, unless empty. *)
Definition merge_quantities (ps : Dict.t (Dict.t pyval)) (quantities : Dict.t pyval)
  : Dict.t (Dict.t pyval) :=
  if Dict.truthy quantities then Dict.set "Quantities" quantities ps else ps.

(** The read raises something [hasattr] does not swallow. *)
Definition read_fails {A : Type} (attribute : exc A) : Prop :=
  exists e, attribute = Raise e /\ (forall msg, e <> AttributeError msg).

(** The answer of a removal that went through. *)
Definition removed : response MessageResponse :=
  Ok200 {| message := "Model removed successfully" |}.

(** The models GET /models lists. *)
Definition listed (w : world) : list ModelItem :=
  match list_models w with
  | Ok200 body => models body
  | HTTPError _ _ => []
  end.

(** ** A small model to run the handlers on *)

Module Sample.

Definition no_attribute {A : Type} (name : string) : exc A :=
  Raise (AttributeError ("entity instance has no attribute '" ++ name ++ "'")).

Definition length_5 : quantity :=
  {| quantity_Name := Ok "Length";
     LengthValue := Ok (PFloat (5 # 1));
     AreaValue := no_attribute "AreaValue";
     VolumeValue := no_attribute "VolumeValue" |}.

Definition area_12 : quantity :=
  {| quantity_Name := Ok "NetSideArea";
     LengthValue := no_attribute "LengthValue";
     AreaValue := Ok (PFloat (12 # 1));
     VolumeValue := no_attribute "VolumeValue" |}.

Definition volume_3 : quantity :=
  {| quantity_Name := Ok "NetVolume";
     LengthValue := no_attribute "LengthValue";
     AreaValue := no_attribute "AreaValue";
     VolumeValue := Ok (PFloat (3 # 1)) |}.

(** an [IfcQuantityCount]: none of the three values *)
Definition count_2 : quantity :=
  {| quantity_Name := Ok "Openings";
     LengthValue := no_attribute "LengthValue";
     AreaValue := no_attribute "AreaValue";
     VolumeValue := no_attribute "VolumeValue" |}.

Definition is_one_of (types : list string) (t : string) : exc bool :=
  Ok (existsb (String.eqb t) types).

Definition element_quantity (qs : list quantity) : property_definition :=
  {| prop_def_is_a := is_one_of ["IfcElementQuantity"; "IfcPropertySetDefinition"];
     Quantities := Ok qs |}.

Definition property_set : property_definition :=
  {| prop_def_is_a := is_one_of ["IfcPropertySet"; "IfcPropertySetDefinition"];
     Quantities := no_attribute "Quantities" |}.

Definition defines (prop_def : property_definition) : relationship :=
  {| rel_is_a := is_one_of ["IfcRelDefinesByProperties"; "IfcRelDefines"];
     RelatingPropertyDefinition := Ok prop_def |}.

Definition defines_by_type : relationship :=
  {| rel_is_a := is_one_of ["IfcRelDefinesByType"; "IfcRelDefines"];
     RelatingPropertyDefinition := no_attribute "RelatingPropertyDefinition" |}.

Definition wall_psets : Dict.t (Dict.t pyval) :=
  [("Pset_WallCommon", [("IsExternal", PBool true); ("id", PInt 41)])].

Definition wall_with (rels : exc (list relationship))
    (ps : exc (Dict.t (Dict.t pyval))) : entity :=
  {| GlobalId := Ok "2O2Fr$t4X7Zf8NOew3FLOH";
     Name := Ok (Some "Wall-001");
     is_a := Ok "IfcWall";
     ObjectType := Ok (PStr "Basic Wall");
     Tag := Ok (PStr "1234");
     Description := Ok PNone;
     IsDefinedBy := rels;
     get_psets := ps |}.

Definition wall : entity :=
  wall_with
    (Ok [defines property_set; defines_by_type;
         defines (element_quantity [length_5; area_12; count_2; volume_3])])
    (Ok wall_psets).

(** a wall whose only quantity is a count *)
Definition counted_wall : entity :=
  wall_with (Ok [defines (element_quantity [count_2])]) (Ok wall_psets).

(** a wall with a property set that happens to be called Quantities *)
Definition named_wall : entity :=
  wall_with (Ok [defines (element_quantity [count_2])])
    (Ok [("Quantities", [("Openings", PInt 2); ("id", PInt 57)])]).

Definition project : entity :=
  {| GlobalId := Ok "0YvctVUKr0kugbFTf53O9L";
     Name := Ok (Some "Office Building");
     is_a := Ok "IfcProject";
     ObjectType := Ok PNone;
     Tag := no_attribute "Tag";
     Description := Ok PNone;
     IsDefinedBy := Ok [];
     get_psets := Ok [] |}.

Definition model_of (projects : list entity) (element : entity) : ifc_file :=
  {| by_guid := fun g =>
       if String.eqb g "2O2Fr$t4X7Zf8NOew3FLOH" then Ok (Some element) else Ok None;
     by_type := fun t =>
       if String.eqb t "IfcProject" then Ok projects
       else if String.eqb t "IfcProduct" then Ok [element]
       else Ok [] |}.

Definition model : ifc_file := model_of [project] wall.

(** an engine that opens files starting with "I" and rejects the rest *)
Definition parse (content : list byte) : exc ifc_file :=
  match content with
  | x49 :: _ => Ok model
  | _ => Raise (PyError "Unable to parse IFC SPF header")
  end.

(** the same engine on files without a project *)
Definition parse_bare (content : list byte) : exc ifc_file :=
  match content with
  | x49 :: _ => Ok (model_of [] wall)
  | _ => Raise (PyError "Unable to parse IFC SPF header")
  end.

Definition good_file : UploadFile :=
  {| upload_filename := Some "office.ifc"; upload_content := [x49; x53; x4f] |}.

Definition bad_file : UploadFile :=
  {| upload_filename := Some "notes.txt"; upload_content := [x68; x69] |}.

Definition blank : world := {| ifc_files := []; disk := [] |}.

Definition holding (element : entity) (node : list (string * fnode)) : world :=
  {| ifc_files :=
       [("m-1", {| file := model_of [project] element;
                   path := "/tmp/tmpa.ifc";
                   filename := Some "office.ifc" |})];
     disk := node |}.

Definition scratch (refused : bool) : list (string * fnode) :=
  [("/tmp/tmpa.ifc", {| data := [x49; x53; x4f]; unlink_refused := refused |})].

Definition ask : GUIDRequest :=
  {| model_id := "m-1"; guid := "2O2Fr$t4X7Zf8NOew3FLOH" |}.

Definition wall_quantities : Dict.t pyval :=
  [("Length", value_unit (PFloat (5 # 1)) "m");
   ("NetSideArea", value_unit (PFloat (12 # 1)) "m²");
   ("NetVolume", value_unit (PFloat (3 # 1)) "m³")].

Definition entry_of (element : entity) : ModelEntry :=
  {| file := model_of [project] element;
     path := "/tmp/tmpa.ifc";
     filename := Some "office.ifc" |}.

(** a wall whose tag cannot be read and whose relationships are broken *)
Definition damaged_wall : entity :=
  {| GlobalId := Ok "2O2Fr$t4X7Zf8NOew3FLOH";
     Name := no_attribute "Name";
     is_a := Ok "IfcWall";
     ObjectType := Ok (PStr "Basic Wall");
     Tag := Raise (PyError "invalid attribute index");
     Description := Ok PNone;
     IsDefinedBy :=
       Ok [defines (element_quantity [length_5]);
           {| rel_is_a := is_one_of ["IfcRelDefinesByProperties"];
              RelatingPropertyDefinition := Raise (PyError "dangling reference") |}];
     get_psets := Raise (PyError "unsupported property") |}.





Definition view_of (element : entity) : ElementResponse :=
  Eval vm_compute in
    match get_element_by_guid ask (holding element (scratch false)) with
    | Ok200 view => view
    | HTTPError _ _ =>
        {| el_guid := ""; el_name := None; el_type := "";
           properties := []; psets := [] |}
    end.

End Sample.

(** ** GET / *)

Record RootResponse : Type := {
  root_message : string;
  endpoints : Dict.t string
}.

Definition root : response RootResponse :=
  Ok200
    {| root_message := "BIM IFC API Server";
       endpoints :=
         [("POST /upload-ifc", "Upload IFC file");
          ("POST /get-element-by-guid", "Get element details by GUID");
          ("DELETE /remove-model/{model_id}", "Remove model");
          ("GET /models", "List loaded models")] |}.

(** ** Further vocabulary *)

(** What [obj.name if hasattr(obj, name) else None] gives when it gives
    something. *)
Definition null_if_absent (attribute : exc pyval) : pyval :=
  match attribute with Ok v => v | Raise _ => PNone end.

(** The item GET /models shows for an entry. *)
Definition item_of (model_id : string) (entry : ModelEntry) : ModelItem :=
  {| item_model_id := model_id; item_filename := filename entry |}.

(** A state in which no identifier is registered twice, no two
    entries share a scratch file, and every entry's scratch file is on
    disk. *)
Definition consistent (w : world) : Prop :=
  NoDup (map fst (ifc_files w))
  /\ NoDup (map (fun kv => path (snd kv)) (ifc_files w))
  /\ (forall k entry, In (k, entry) (ifc_files w) ->
       Dict.mem (path entry) (disk w) = true).

(** ** Further models to run the handlers on *)

Module Cases.

(** a model whose schema has no IfcProduct *)
Definition odd_schema_model : ifc_file :=
  {| by_guid := fun g => Ok None;
     by_type := fun t =>
       if String.eqb t "IfcProject" then Ok [Sample.project]
       else Raise (PyError ("Entity with name '" ++ t ++ "' not found in schema")) |}.

Definition parse_odd (content : list byte) : exc ifc_file :=
  match content with
  | x49 :: _ => Ok odd_schema_model
  | _ => Raise (PyError "Unable to parse IFC SPF header")
  end.

Definition second_file : UploadFile :=
  {| upload_filename := Some "annex.ifc"; upload_content := [x49; x46; x43] |}.

(** a length and, later in the same set, an area of the same name *)
Definition renamed_area : quantity :=
  {| quantity_Name := Ok "Length";
     LengthValue := Sample.no_attribute "LengthValue";
     AreaValue := Ok (PFloat (7 # 1));
     VolumeValue := Sample.no_attribute "VolumeValue" |}.

(** a length whose name cannot be read *)
Definition nameless_length : quantity :=
  {| quantity_Name := Raise (PyError "invalid attribute index");
     LengthValue := Ok (PFloat (2 # 1));
     AreaValue := Sample.no_attribute "AreaValue";
     VolumeValue := Sample.no_attribute "VolumeValue" |}.

Definition spoiled_wall : entity :=
  Sample.wall_with
    (Ok [Sample.defines (Sample.element_quantity [Sample.length_5]);
         Sample.defines (Sample.element_quantity [nameless_length])])
    (Ok Sample.wall_psets).

(** a wall without Tag and Name, as a non-element root would be *)
Definition plain_wall : entity :=
  {| GlobalId := Ok "2O2Fr$t4X7Zf8NOew3FLOH";
     Name := Sample.no_attribute "Name";
     is_a := Ok "IfcWall";
     ObjectType := Ok (PStr "Basic Wall");
     Tag := Sample.no_attribute "Tag";
     Description := Ok PNone;
     IsDefinedBy := Ok [];
     get_psets := Ok [] |}.

(** a wall with quantities and a property set called Quantities *)
Definition shadowing_wall : entity :=
  Sample.wall_with
    (Ok [Sample.defines (Sample.element_quantity [Sample.length_5])])
    (Ok [("Pset_WallCommon", [("IsExternal", PBool true)]);
         ("Quantities", [("Openings", PInt 2)])]).

Definition two_models : world :=
  {| ifc_files :=
       [("m-1", Sample.entry_of Sample.wall);
        ("m-2", {| file := Sample.model; path := "/tmp/tmpb.ifc";
                   filename := Some "annex.ifc" |})];
     disk :=
       [("/tmp/tmpa.ifc", {| data := [x49; x53; x4f]; unlink_refused := false |});
        ("/tmp/tmpb.ifc", {| data := [x49; x46; x43]; unlink_refused := false |})] |}.

End Cases.

(** * Properties *)

(** ** Dictionaries *)

Module DictFacts.
Section Facts.
Context {V : Type}.
Implicit Types (d : Dict.t V) (k : string) (v : V).

Lemma get_set_eq k v d : Dict.get k (Dict.set k v d) = Some v.
Proof.
  induction d as [|[k' v'] d IH]; simpl.
  - now rewrite String.eqb_refl.
  - destruct (String.eqb k k') eqn:E; simpl.
    + now rewrite String.eqb_refl.
    + now rewrite E.
Qed.

Lemma get_set_ne k k' v d : k <> k' -> Dict.get k' (Dict.set k v d) = Dict.get k' d.
Proof.
  intros Hne. induction d as [|[k0 v0] d IH]; simpl.
  - destruct (String.eqb_spec k' k); congruence.
  - destruct (String.eqb_spec k k0) as [->|Hk]; simpl.
    + destruct (String.eqb_spec k' k0); congruence.
    + destruct (String.eqb_spec k' k0); congruence.
Qed.

Lemma get_del_eq k d : Dict.get k (Dict.del k d) = None.
Proof.
  induction d as [|[k' v'] d IH]; simpl; [reflexivity|].
  destruct (String.eqb k k') eqn:E; simpl; [assumption|].
  now rewrite E.
Qed.

Lemma get_del_ne k k' d : k <> k' -> Dict.get k' (Dict.del k d) = Dict.get k' d.
Proof.
  intros Hne. induction d as [|[k0 v0] d IH]; simpl; [reflexivity|].
  destruct (String.eqb_spec k k0) as [->|Hk]; simpl.
  - destruct (String.eqb_spec k' k0); congruence.
  - destruct (String.eqb_spec k' k0); congruence.
Qed.

Lemma mem_get k d : Dict.mem k d = true <-> exists v, Dict.get k d = Some v.
Proof.
  unfold Dict.mem. destruct (Dict.get k d) as [v|].
  - split; eauto.
  - split; [discriminate | intros [v Hv]; discriminate].
Qed.

Lemma not_mem_get k d : Dict.mem k d = false <-> Dict.get k d = None.
Proof.
  unfold Dict.mem. destruct (Dict.get k d); split; congruence.
Qed.

Lemma mem_set_ne k k' v d : k <> k' -> Dict.mem k' (Dict.set k v d) = Dict.mem k' d.
Proof. intros Hne. unfold Dict.mem. now rewrite get_set_ne. Qed.

Lemma mem_del_eq k d : Dict.mem k (Dict.del k d) = false.
Proof. unfold Dict.mem. now rewrite get_del_eq. Qed.

Lemma mem_del_false k k' d : Dict.mem k' d = false -> Dict.mem k' (Dict.del k d) = false.
Proof.
  destruct (String.eqb_spec k k') as [->|Hne]; intros H.
  - apply mem_del_eq.
  - unfold Dict.mem in *. now rewrite get_del_ne.
Qed.

Lemma get_In k v d : Dict.get k d = Some v -> In (k, v) d.
Proof.
  induction d as [|[k' v'] d IH]; simpl; [discriminate|].
  destruct (String.eqb_spec k k') as [->|Hne].
  - intros [= ->]. now left.
  - intros H. right. auto.
Qed.

Lemma In_mem k v d : In (k, v) d -> Dict.mem k d = true.
Proof.
  unfold Dict.mem. induction d as [|[k' v'] d IH]; simpl; [contradiction|].
  intros [[= -> ->]|H].
  - now rewrite String.eqb_refl.
  - destruct (String.eqb k k'); auto.
Qed.

Lemma truthy_false d : Dict.truthy d = false -> d = Dict.empty.
Proof. destruct d; [reflexivity | discriminate]. Qed.

Lemma truthy_get d : Dict.truthy d = true -> exists k v, Dict.get k d = Some v.
Proof.
  destruct d as [|[k v] d]; [discriminate|]. intros _.
  exists k, v. simpl. now rewrite String.eqb_refl.
Qed.

End Facts.
End DictFacts.

(** ** Loops *)

(** A property of the loop variables, indexed by what was visited,
    that every round extends holds when the loop is through. *)
Lemma for_in_invariant {A S : Type} (body : S -> A -> exc S)
    (P : list A -> S -> Prop) :
  (forall seen s x s', P seen s -> body s x = Ok s' -> P (seen ++ [x])%list s') ->
  forall l seen s s',
    P seen s -> for_in l body s = Ok s' -> P (seen ++ l)%list s'.
Proof.
  intros Hstep l. induction l as [|x l IH]; intros seen s s' HP Hrun; simpl in Hrun.
  - injection Hrun as <-. now rewrite app_nil_r.
  - destruct (body s x) as [s1|e] eqn:Hx; [|discriminate].
    replace (seen ++ x :: l)%list with ((seen ++ [x]) ++ l)%list
      by (rewrite <- app_assoc; reflexivity).
    eapply IH; eauto.
Qed.

(** ** Quantity-unit inference *)

Section Quantities.
Import DictFacts.

Lemma lacks_not_Ok {A : Type} (attribute : exc A) (v : A) :
  lacks attribute -> attribute <> Ok v.
Proof. intros [msg ->]. discriminate. Qed.

Lemma hasattr_lacks {A : Type} (attribute : exc A) :
  lacks attribute -> hasattr attribute = Ok false.
Proof. intros [msg ->]. reflexivity. Qed.

Lemma hasattr_false {A : Type} (attribute : exc A) :
  hasattr attribute = Ok false -> lacks attribute.
Proof.
  destruct attribute as [a|[msg|c d|msg]]; simpl; try discriminate.
  intros _. now exists msg.
Qed.


Lemma carries_none_no_unit q v u : carries_none q -> ~ unit_for q v u.
Proof.
  intros (HL & HA & HV) [[H _]|[(_ & H & _)|(_ & _ & H & _)]];
    [apply (HL v) | apply (HA v) | apply (HV v)]; exact H.
Qed.

(** One round of the innermost loop on a quantity that has a unit. *)
Lemma record_quantity_unit quantities q n v u :
  unit_for q v u -> quantity_Name q = Ok n ->
  record_quantity quantities q = Ok (Dict.set n (value_unit v u) quantities).
Proof.
  intros [[HL ->]|[(L & HA & ->)|(L & A & HV & ->)]] Hn; unfold record_quantity.
  - rewrite HL. simpl. now rewrite Hn.
  - rewrite (hasattr_lacks _ L). simpl. rewrite HA. simpl. now rewrite Hn.
  - rewrite (hasattr_lacks _ L). simpl. rewrite (hasattr_lacks _ A). simpl.
    rewrite HV. simpl. now rewrite Hn.
Qed.

(** One round on a quantity without any of the three attributes. *)
Lemma record_quantity_none quantities q :
  lacks (LengthValue q) -> lacks (AreaValue q) -> lacks (VolumeValue q) ->
  record_quantity quantities q = Ok quantities.
Proof.
  intros L A V. unfold record_quantity.
  rewrite (hasattr_lacks _ L). simpl. rewrite (hasattr_lacks _ A). simpl.
  now rewrite (hasattr_lacks _ V).
Qed.

(** A round that does not raise did one of the two. *)
Lemma record_quantity_cases quantities q quantities' :
  record_quantity quantities q = Ok quantities' ->
  (exists n v u, unit_for q v u /\ quantity_Name q = Ok n
                 /\ quantities' = Dict.set n (value_unit v u) quantities)
  \/ (lacks (LengthValue q) /\ lacks (AreaValue q) /\ lacks (VolumeValue q)
      /\ quantities' = quantities).
Proof.
  unfold record_quantity, unit_for.
  destruct (hasattr (LengthValue q)) as [[|]|e] eqn:HL; simpl; [| |discriminate].
  - destruct (LengthValue q) as [v|e] eqn:EL; simpl; [|discriminate].
    destruct (quantity_Name q) as [n|e]; simpl; [|discriminate].
    intros [= <-]. left. exists n, v, "m".
    split; [left; auto | auto].
  - apply hasattr_false in HL.
    destruct (hasattr (AreaValue q)) as [[|]|e] eqn:HA; simpl; [| |discriminate].
    + destruct (AreaValue q) as [v|e] eqn:EA; simpl; [|discriminate].
      destruct (quantity_Name q) as [n|e]; simpl; [|discriminate].
      intros [= <-]. left. exists n, v, "m²".
      split; [right; left; auto | auto].
    + apply hasattr_false in HA.
      destruct (hasattr (VolumeValue q)) as [[|]|e] eqn:HV; simpl; [| |discriminate].
      * destruct (VolumeValue q) as [v|e] eqn:EV; simpl; [|discriminate].
        destruct (quantity_Name q) as [n|e]; simpl; [|discriminate].
        intros [= <-]. left. exists n, v, "m³".
        split; [right; right; auto | auto].
      * apply hasattr_false in HV. intros [= <-]. right. auto.
Qed.

Lemma recorded_ext (seen seen' : quantity -> Prop) quantities :
  (forall q, seen q <-> seen' q) -> recorded seen quantities -> recorded seen' quantities.
Proof.
  intros Hext [Hsound Hcomplete]. split.
  - intros n x Hget. destruct (Hsound n x Hget) as (q & v & u & Hq & H).
    exists q, v, u. split; [now apply Hext | exact H].
  - intros q v u Hq. apply Hcomplete. now apply Hext.
Qed.

Lemma recorded_empty (seen : quantity -> Prop) :
  (forall q, ~ seen q) -> recorded seen Dict.empty.
Proof.
  intros Hnone. split.
  - intros n x H. discriminate.
  - intros q v u Hq. destruct (Hnone q Hq).
Qed.

Lemma recorded_round (seen : quantity -> Prop) quantities q quantities' :
  recorded seen quantities ->
  record_quantity quantities q = Ok quantities' ->
  recorded (fun q' => seen q' \/ q' = q) quantities'.
Proof.
  intros [Hsound Hcomplete] Hround.
  destruct (record_quantity_cases _ _ _ Hround)
    as [(n & v & u & Hu & Hn & ->)|(L & A & V & ->)].
  - split.
    + intros n' x. destruct (String.eqb_spec n n') as [<-|Hne].
      * rewrite get_set_eq. intros [= <-]. exists q, v, u. auto.
      * rewrite get_set_ne by assumption. intros Hget.
        destruct (Hsound n' x Hget) as (q' & v' & u' & Hq' & H).
        exists q', v', u'. auto.
    + intros q' v' u' [Hq'| ->] Hu'.
      * destruct (Hcomplete q' v' u' Hq' Hu') as (n' & x & Hn' & Hget).
        exists n'. destruct (String.eqb_spec n n') as [<-|Hne].
        -- exists (value_unit v u). split; [assumption | apply get_set_eq].
        -- exists x. split; [assumption | now rewrite get_set_ne].
      * exists n, (value_unit v u). split; [assumption | apply get_set_eq].
  - split.
    + intros n x Hget. destruct (Hsound n x Hget) as (q' & v' & u' & Hq' & H).
      exists q', v', u'. auto.
    + intros q' v' u' [Hq'| ->] Hu'.
      * now apply (Hcomplete q' v' u').
      * exfalso. destruct Hu' as [[H _]|[(_ & H & _)|(_ & _ & H & _)]].
        -- exact (lacks_not_Ok _ _ L H).
        -- exact (lacks_not_Ok _ _ A H).
        -- exact (lacks_not_Ok _ _ V H).
Qed.

Lemma recorded_visit (seen : quantity -> Prop) quantities rel quantities' :
  recorded seen quantities ->
  visit_relationship quantities rel = Ok quantities' ->
  recorded (fun q => seen q \/ behind rel q) quantities'.
Proof.
  intros Hrec. unfold visit_relationship.
  assert (Hskip : (forall q, ~ behind rel q) ->
                  recorded (fun q => seen q \/ behind rel q) quantities).
  { intros Hno. apply (recorded_ext seen); [|exact Hrec].
    intros q. split; [now left | intros [H|H]; [exact H | destruct (Hno q H)]]. }
  destruct (rel_is_a rel "IfcRelDefinesByProperties") as [[|]|e] eqn:Hrel;
    simpl; [| |discriminate].
  2:{ intros [= <-]. apply Hskip.
      intros q (prop_def & qs & H & _). congruence. }
  destruct (RelatingPropertyDefinition rel) as [prop_def|e] eqn:Hdef;
    simpl; [|discriminate].
  destruct (prop_def_is_a prop_def "IfcElementQuantity") as [[|]|e] eqn:Hqto;
    simpl; [| |discriminate].
  2:{ intros [= <-]. apply Hskip.
      intros q (prop_def' & qs & _ & Hdef' & Hqto' & _). congruence. }
  destruct (Quantities prop_def) as [qs|e] eqn:Hqs; simpl; [|discriminate].
  intros Hloop.
  apply (recorded_ext (fun q => seen q \/ In q ([] ++ qs)%list)).
  - intros q. simpl. split; (intros [H|H]; [now left | right]).
    + exists prop_def, qs. auto.
    + destruct H as (prop_def' & qs' & _ & Hdef' & _ & Hqs' & Hin). congruence.
  - apply (for_in_invariant record_quantity
             (fun done d => recorded (fun q => seen q \/ In q done) d))
      with (s := quantities); [| |exact Hloop].
    + intros done d q d' Hd Hround.
      apply (recorded_ext (fun q' => (seen q' \/ In q' done) \/ q' = q)).
      * intros q'. rewrite in_app_iff. simpl. intuition.
      * now apply (recorded_round _ d).
    + apply (recorded_ext seen); [|exact Hrec]. simpl. intuition.
Qed.

(** When the loops are through, [quantities] records the quantities
    reached through the element's defining relationships. *)
Lemma collect_quantities_recorded element quantities :
  collect_quantities element = Ok quantities ->
  recorded (reached element) quantities.
Proof.
  unfold collect_quantities.
  destruct (IsDefinedBy element) as [rels|e] eqn:Hrels; simpl; [|discriminate].
  intros Hloop.
  apply (recorded_ext (fun q => exists rel, In rel ([] ++ rels)%list /\ behind rel q)).
  - intros q. simpl. split.
    + intros (rel & Hin & Hq). exists rels, rel. auto.
    + intros (rels' & rel & Hrels' & Hin & Hq). exists rel.
      split; [congruence | exact Hq].
  - apply (for_in_invariant visit_relationship
             (fun done d => recorded (fun q => exists rel, In rel done /\ behind rel q) d))
      with (s := Dict.empty); [| |exact Hloop].
    + intros done d rel d' Hd Hvisit.
      apply (recorded_ext
               (fun q => (exists rel', In rel' done /\ behind rel' q) \/ behind rel q)).
      * intros q. split.
        -- intros [(rel' & Hin & Hq)|Hq].
           ++ exists rel'. rewrite in_app_iff. auto.
           ++ exists rel. rewrite in_app_iff. simpl. auto.
        -- intros (rel' & Hin & Hq). rewrite in_app_iff in Hin. simpl in Hin.
           destruct Hin as [Hin|[<-|[]]]; [left; eauto | now right].
      * now apply (recorded_visit _ d).
    + apply recorded_empty. intros q (rel & [] & _).
Qed.

(** Without a quantity that has a unit the loops leave [quantities] empty. *)
Lemma collect_quantities_nothing element quantities :
  collect_quantities element = Ok quantities ->
  (forall q, reached element q -> carries_none q) ->
  quantities = Dict.empty.
Proof.
  intros Hrun Hnone. apply truthy_false.
  destruct (Dict.truthy quantities) eqn:Htruth; [exfalso|reflexivity].
  destruct (truthy_get _ Htruth) as (n & x & Hget).
  destruct (collect_quantities_recorded _ _ Hrun) as [Hsound _].
  destruct (Hsound n x Hget) as (q & v & u & Hq & _ & Hu & _).
  exact (carries_none_no_unit q v u (Hnone q Hq) Hu).
Qed.

End Quantities.

(** ** Query by guid *)

Section Query.
Import DictFacts.

Lemma project_element_found element g n t :
  GlobalId element = Ok g ->
  getattr_or (Name element) None = Ok n ->
  is_a element = Ok t ->
  project_element element =
    Ok {| el_guid := g; el_name := n; el_type := t;
          properties := or_empty (read_properties element);
          psets := merge_quantities (or_empty (get_psets element))
                     (or_empty (collect_quantities element)) |}.
Proof.
  intros Hg Hn Ht. unfold project_element. rewrite Hg. simpl.
  rewrite Hn. simpl. rewrite Ht. simpl.
  unfold merge_quantities, with_psets, with_properties.
  destruct (read_properties element) as [p|e1];
    destruct (get_psets element) as [ps|e2];
    destruct (collect_quantities element) as [[|kv m]|e3]; reflexivity.
Qed.

Lemma project_element_returned element view :
  project_element element = Ok view ->
  exists g n t,
    GlobalId element = Ok g /\ getattr_or (Name element) None = Ok n
    /\ is_a element = Ok t
    /\ view = {| el_guid := g; el_name := n; el_type := t;
                 properties := or_empty (read_properties element);
                 psets := merge_quantities (or_empty (get_psets element))
                            (or_empty (collect_quantities element)) |}.
Proof.
  intros Hrun.
  destruct (GlobalId element) as [g|e] eqn:Hg;
    [|unfold project_element in Hrun; rewrite Hg in Hrun; discriminate].
  destruct (getattr_or (Name element) None) as [n|e] eqn:Hn;
    [|unfold project_element in Hrun; rewrite Hg in Hrun; simpl in Hrun;
      rewrite Hn in Hrun; discriminate].
  destruct (is_a element) as [t|e] eqn:Ht;
    [|unfold project_element in Hrun; rewrite Hg in Hrun; simpl in Hrun;
      rewrite Hn in Hrun; simpl in Hrun; rewrite Ht in Hrun; discriminate].
  exists g, n, t. rewrite (project_element_found element g n t Hg Hn Ht) in Hrun.
  injection Hrun as <-. auto.
Qed.

(** The query on a registered model whose lookup hands back an element. *)
Lemma query_found request w entry element :
  Dict.get (model_id request) (ifc_files w) = Some entry ->
  by_guid (file entry) (guid request) = Ok (Some element) ->
  get_element_by_guid request w =
    match project_element element with
    | Ok element_data => Ok200 element_data
    | Raise (HTTPException status_code detail) => HTTPError status_code detail
    | Raise e => HTTPError 500 ("Error retrieving element: " ++ str e)
    end.
Proof.
  intros Hentry Hfound. unfold get_element_by_guid, Dict.mem, Dict.subscript.
  rewrite Hentry. simpl. rewrite Hfound. reflexivity.
Qed.

Lemma query_returned request w entry element view :
  Dict.get (model_id request) (ifc_files w) = Some entry ->
  by_guid (file entry) (guid request) = Ok (Some element) ->
  get_element_by_guid request w = Ok200 view ->
  project_element element = Ok view.
Proof.
  intros Hentry Hfound. rewrite (query_found _ _ _ _ Hentry Hfound).
  destruct (project_element element) as [v|[msg|c d|msg]]; intros H;
    try discriminate.
  now injection H as <-.
Qed.

End Query.



(** The length of 5.0 named "Length" of the specification's example. *)
Example length_five_metres :
  Dict.get "Length" Sample.wall_quantities
  = Some (PDict [("value", PFloat (5 # 1)); ("unit", PStr "m")])
  /\ Dict.get "Openings" Sample.wall_quantities = None.
Proof. split; reflexivity. Qed.

(** C9, as stated, fails: a wall whose only quantity is a count, and
    whose property sets include one called "Quantities", is answered
    with a "Quantities" key. *)
Lemma quantities_key_counterexample :
  (forall q, reached Sample.named_wall q -> carries_none q)
  /\ collect_quantities Sample.named_wall = Ok Dict.empty
  /\ get_element_by_guid Sample.ask
       (Sample.holding Sample.named_wall (Sample.scratch false))
     = Ok200 (Sample.view_of Sample.named_wall)
  /\ Dict.get "Quantities" (psets (Sample.view_of Sample.named_wall))
     = Some [("Openings", PInt 2); ("id", PInt 57)].
Proof.
  split; [|repeat split; reflexivity].
  intros q (rels & rel & Hrels & Hin & prop_def & qs & _ & Hdef & _ & Hqs & Hq).
  injection Hrels as <-. destruct Hin as [<-|[]].
  injection Hdef as <-. injection Hqs as <-. destruct Hq as [<-|[]].
  repeat split; intros v; discriminate.
Qed.

(** C9, amended. When no reached quantity carries a length, an area
    or a volume, the quantity step adds nothing: the psets of the view
    are the property sets as retrieved (none if that failed), so
    "Quantities" is a key of the view only if it is one of those. *)
Theorem quantities_key_only_from_psets :
  forall w request entry element view,
    Dict.get (model_id request) (ifc_files w) = Some entry ->
    by_guid (file entry) (guid request) = Ok (Some element) ->
    get_element_by_guid request w = Ok200 view ->
    (forall q, reached element q -> carries_none q) ->
    psets view = or_empty (get_psets element)
    /\ (Dict.get "Quantities" (or_empty (get_psets element)) = None ->
        Dict.get "Quantities" (psets view) = None).
Proof.
  intros w request entry element view Hentry Hfound Hquery Hnone.
  assert (Hpsets : psets view = or_empty (get_psets element)).
  { destruct (project_element_returned _ _
                (query_returned _ _ _ _ _ Hentry Hfound Hquery))
      as (g & n & t & _ & _ & _ & ->).
    simpl. destruct (collect_quantities element) as [m|e] eqn:Hrun; [|reflexivity].
    now rewrite (collect_quantities_nothing _ _ Hrun Hnone). }
  split; [exact Hpsets | now rewrite Hpsets].
Qed.

Lemma quantities_key_only_from_psets_witness :
  psets (Sample.view_of Sample.counted_wall) = Sample.wall_psets
  /\ Dict.get "Quantities" (psets (Sample.view_of Sample.counted_wall)) = None.
Proof.
  assert (Hnone : forall q, reached Sample.counted_wall q -> carries_none q).
  { intros q (rels & rel & Hrels & Hin & prop_def & qs & _ & Hdef & _ & Hqs & Hq).
    injection Hrels as <-. destruct Hin as [<-|[]].
    injection Hdef as <-. injection Hqs as <-. destruct Hq as [<-|[]].
    repeat split; intros v; discriminate. }
  destruct (quantities_key_only_from_psets
              (Sample.holding Sample.counted_wall (Sample.scratch false))
              Sample.ask (Sample.entry_of Sample.counted_wall) Sample.counted_wall
              (Sample.view_of Sample.counted_wall)
              eq_refl eq_refl eq_refl Hnone) as [H1 H2].
  split; [exact H1 | apply H2; reflexivity].
Defined.

Lemma read_properties_fails element :
  read_fails (ObjectType element) \/ read_fails (Tag element)
  \/ read_fails (Description element) ->
  exists e, read_properties element = Raise e.
Proof.
  unfold read_properties, getattr_or, read_fails.
  intros [(e & -> & He)|[(e & Ht & He)|(e & Hd & He)]].
  - destruct e as [msg|c d|msg]; [destruct (He msg eq_refl) | |]; simpl; eauto.
  - destruct (ObjectType element) as [a|[m|c d|m]]; simpl; eauto;
      rewrite Ht;
      (destruct e as [msg|c' d'|msg]; [destruct (He msg eq_refl) | |]; simpl; eauto).
  - destruct (ObjectType element) as [a|[m|c d|m]]; simpl; eauto;
      (destruct (Tag element) as [b|[m'|c' d'|m']]; simpl; eauto);
      rewrite Hd;
      (destruct e as [msg|c2 d2|msg]; [destruct (He msg eq_refl) | |]; simpl; eauto).
Qed.

(** C4. On a registered model and a found element whose identity
    fields read, the query answers 200 whatever happens in the three
    blocks: the properties are the three attributes or, when their read
    raises, empty; the psets are the retrieved property sets or, when
    retrieval raises, empty; the quantities go under "Quantities" or,
    when their retrieval raises, are left out whole.  Each block falls
    back on its own. *)
Theorem blocks_degrade_independently :
  forall w request entry element g n t,
    Dict.get (model_id request) (ifc_files w) = Some entry ->
    by_guid (file entry) (guid request) = Ok (Some element) ->
    GlobalId element = Ok g ->
    getattr_or (Name element) None = Ok n ->
    is_a element = Ok t ->
    exists view,
      get_element_by_guid request w = Ok200 view
      /\ el_guid view = g /\ el_name view = n /\ el_type view = t
      /\ properties view = or_empty (read_properties element)
      /\ psets view = merge_quantities (or_empty (get_psets element))
                        (or_empty (collect_quantities element))
      /\ (read_fails (ObjectType element) \/ read_fails (Tag element)
          \/ read_fails (Description element) ->
          properties view = Dict.empty)
      /\ (forall e, get_psets element = Raise e ->
          psets view = merge_quantities Dict.empty
                         (or_empty (collect_quantities element)))
      /\ (forall e, collect_quantities element = Raise e ->
          psets view = or_empty (get_psets element)).
Proof.
  intros w request entry element g n t Hentry Hfound Hg Hn Ht.
  eexists. split.
  - rewrite (query_found _ _ _ _ Hentry Hfound).
    rewrite (project_element_found _ _ _ _ Hg Hn Ht). reflexivity.
  - simpl. repeat split; try reflexivity.
    + intros Hfail. destruct (read_properties_fails _ Hfail) as [e ->]. reflexivity.
    + intros e ->. reflexivity.
    + intros e ->. reflexivity.
Qed.

Lemma blocks_degrade_independently_witness :
  get_element_by_guid Sample.ask
    (Sample.holding Sample.damaged_wall (Sample.scratch false))
  = Ok200 {| el_guid := "2O2Fr$t4X7Zf8NOew3FLOH"; el_name := None;
             el_type := "IfcWall"; properties := []; psets := [] |}.
Proof.
  destruct (blocks_degrade_independently
              (Sample.holding Sample.damaged_wall (Sample.scratch false))
              Sample.ask (Sample.entry_of Sample.damaged_wall) Sample.damaged_wall
              "2O2Fr$t4X7Zf8NOew3FLOH" None "IfcWall"
              eq_refl eq_refl eq_refl eq_refl eq_refl)
    as (view & Hq & Hguid & Hname & Htype & Hprops & Hpsets & _).
  rewrite Hq. destruct view as [g n t p ps]. simpl in *.
  rewrite Hguid, Hname, Htype, Hprops, Hpsets. reflexivity.
Defined.



(** ** Upload *)

Section UploadFacts.
Import DictFacts.
Variable parse : list byte -> exc ifc_file.
Variables (uuid4 : string) (candidates : list string) (file_ : UploadFile).

Lemma unused_name_fresh names suffix (d : Dict.t fnode) p :
  unused_name names suffix d = Ok p -> Dict.get p d = None.
Proof.
  induction names as [|c names IH]; [discriminate|].
  cbn [unused_name]. cbv zeta.
  destruct (Dict.mem ("/tmp/tmp" ++ c ++ suffix) d) eqn:Hmem; [exact IH|].
  intros [= <-]. now apply not_mem_get.
Qed.

(** No name for the scratch file: nothing was written. *)
Lemma upload_no_name w e :
  unused_name candidates ".ifc" (disk w) = Raise e ->
  upload_ifc parse uuid4 candidates file_ w
  = (HTTPError 500 ("Error processing IFC: " ++ str e), w).
Proof.
  intros Hname. unfold upload_ifc, try_except_500, NamedTemporaryFile. simpl.
  rewrite Hname. reflexivity.
Qed.

(** The engine rejects the content: the scratch file is all that changed. *)
Lemma upload_rejected w tmp_path e :
  unused_name candidates ".ifc" (disk w) = Ok tmp_path ->
  parse (upload_content file_) = Raise e ->
  upload_ifc parse uuid4 candidates file_ w
  = (HTTPError 500 ("Error processing IFC: " ++ str e),
     {| ifc_files := ifc_files w;
        disk := Dict.set tmp_path
                {| data := upload_content file_; unlink_refused := false |}
                (disk w) |}).
Proof.
  intros Hname Hparse.
  unfold upload_ifc, try_except_500, NamedTemporaryFile, ifcopenshell_open. simpl.
  rewrite Hname. simpl. rewrite get_set_eq. simpl. rewrite Hparse. reflexivity.
Qed.

(** The engine opens the content: the entry is registered, whatever
    reading the basic information does afterwards. *)
Lemma upload_opened_state w tmp_path f :
  unused_name candidates ".ifc" (disk w) = Ok tmp_path ->
  parse (upload_content file_) = Ok f ->
  snd (upload_ifc parse uuid4 candidates file_ w)
  = {| ifc_files :=
         Dict.set uuid4
           {| file := f; path := tmp_path; filename := upload_filename file_ |}
           (ifc_files w);
       disk := Dict.set tmp_path
                {| data := upload_content file_; unlink_refused := false |}
                (disk w) |}.
Proof.
  intros Hname Hparse.
  unfold upload_ifc, try_except_500, NamedTemporaryFile, ifcopenshell_open,
    ifc_files_setitem, lift. simpl.
  rewrite Hname. simpl. rewrite get_set_eq. simpl. rewrite Hparse. simpl.
  destruct (by_type f "IfcProject") as [[|p rest]|e]; simpl; try reflexivity.
  - destruct (by_type f "IfcProduct"); reflexivity.
  - destruct (Name p); simpl; [|reflexivity].
    destruct (by_type f "IfcProduct"); reflexivity.
Qed.

Lemma upload_opened_response w tmp_path f :
  unused_name candidates ".ifc" (disk w) = Ok tmp_path ->
  parse (upload_content file_) = Ok f ->
  fst (upload_ifc parse uuid4 candidates file_ w)
  = match
      (projects <- by_type f "IfcProject" ;;
       name <- match projects with
               | [] => Ok (Some "Unknown")
               | p :: _ => Name p
               end ;;
       products <- by_type f "IfcProduct" ;;
       ret {| up_model_id := uuid4;
              up_filename := upload_filename file_;
              project_name := name;
              total_elements := length products;
              up_message := "IFC file uploaded successfully" |})
    with
    | Ok body => Ok200 body
    | Raise e => HTTPError 500 ("Error processing IFC: " ++ str e)
    end.
Proof.
  intros Hname Hparse.
  unfold upload_ifc, try_except_500, NamedTemporaryFile, ifcopenshell_open,
    ifc_files_setitem, lift. simpl.
  rewrite Hname. simpl. rewrite get_set_eq. simpl. rewrite Hparse. simpl.
  destruct (by_type f "IfcProject") as [[|p rest]|e]; simpl; try reflexivity.
  - destruct (by_type f "IfcProduct"); reflexivity.
  - destruct (Name p); simpl; [|reflexivity].
    destruct (by_type f "IfcProduct"); reflexivity.
Qed.

(** What an upload does to [ifc_files]: nothing, or one assignment
    under the identifier it drew. *)
Lemma upload_ifc_files w :
  ifc_files (snd (upload_ifc parse uuid4 candidates file_ w)) = ifc_files w
  \/ exists entry,
       ifc_files (snd (upload_ifc parse uuid4 candidates file_ w))
       = Dict.set uuid4 entry (ifc_files w).
Proof.
  destruct (unused_name candidates ".ifc" (disk w)) as [tmp_path|e] eqn:Hname.
  - destruct (parse (upload_content file_)) as [f|e] eqn:Hparse.
    + right. eexists. now rewrite (upload_opened_state w tmp_path f).
    + left. now rewrite (upload_rejected w tmp_path e).
  - left. now rewrite (upload_no_name w e).
Qed.

End UploadFacts.

(** ** Remove *)

Section RemoveFacts.
Import DictFacts.
Variables (model_id : string) (w : world) (entry : ModelEntry).
Hypothesis registered : Dict.get model_id (ifc_files w) = Some entry.

(** The scratch file is already gone. *)
Lemma remove_missing_file :
  Dict.get (path entry) (disk w) = None ->
  remove_model model_id w
  = (removed, {| ifc_files := Dict.del model_id (ifc_files w); disk := disk w |}).
Proof.
  intros Hgone.
  unfold remove_model, try_except_500, ifc_files_getitem, os_path_exists,
    ifc_files_delitem, Dict.mem, Dict.subscript.
  rewrite registered. simpl. rewrite registered. simpl.
  rewrite Hgone. simpl. rewrite registered. reflexivity.
Qed.

(** The scratch file is there and may be unlinked. *)
Lemma remove_unlinks node :
  Dict.get (path entry) (disk w) = Some node ->
  unlink_refused node = false ->
  remove_model model_id w
  = (removed, {| ifc_files := Dict.del model_id (ifc_files w);
                 disk := Dict.del (path entry) (disk w) |}).
Proof.
  intros Hnode Hfree.
  unfold remove_model, try_except_500, ifc_files_getitem, os_path_exists,
    os_remove, ifc_files_delitem, Dict.mem, Dict.subscript.
  rewrite registered. simpl. rewrite registered. simpl.
  rewrite Hnode. simpl. rewrite Hnode, Hfree. simpl. rewrite registered.
  reflexivity.
Qed.

(** The scratch file is there and unlinking it is refused. *)
Lemma remove_refused node :
  Dict.get (path entry) (disk w) = Some node ->
  unlink_refused node = true ->
  remove_model model_id w
  = (HTTPError 500
       ("Error removing model: [Errno 13] Permission denied: '"
        ++ path entry ++ "'"),
     w).
Proof.
  intros Hnode Hrefused.
  unfold remove_model, try_except_500, ifc_files_getitem, os_path_exists,
    os_remove, ifc_files_delitem, Dict.mem, Dict.subscript.
  rewrite registered. simpl. rewrite registered. simpl.
  rewrite Hnode. simpl. rewrite Hnode, Hrefused. reflexivity.
Qed.

End RemoveFacts.

Lemma remove_unregistered model_id w :
  Dict.mem model_id (ifc_files w) = false ->
  remove_model model_id w = (HTTPError 404 "Model not found", w).
Proof. intros H. unfold remove_model. now rewrite H. Qed.

(** What a removal does to [ifc_files]: nothing, or one deletion. *)
Lemma remove_model_files model_id w :
  ifc_files (snd (remove_model model_id w)) = ifc_files w
  \/ ifc_files (snd (remove_model model_id w)) = Dict.del model_id (ifc_files w).
Proof.
  destruct (Dict.get model_id (ifc_files w)) as [entry|] eqn:Hentry.
  - destruct (Dict.get (path entry) (disk w)) as [node|] eqn:Hnode.
    + destruct (unlink_refused node) eqn:Hflag.
      * left. now rewrite (remove_refused _ _ _ Hentry node).
      * right. now rewrite (remove_unlinks _ _ _ Hentry node).
    + right. now rewrite (remove_missing_file _ _ _ Hentry).
  - left. rewrite remove_unregistered; [reflexivity|].
    now apply DictFacts.not_mem_get.
Qed.

(** C3. An upload whose content the engine cannot open is answered
    500, with the engine's text when the scratch file could be written,
    and leaves [ifc_files] as it was. *)
Theorem upload_unparseable_not_registered :
  forall parse uuid4 candidates file_ w e,
    parse (upload_content file_) = Raise e ->
    status (fst (upload_ifc parse uuid4 candidates file_ w)) = 500
    /\ ifc_files (snd (upload_ifc parse uuid4 candidates file_ w)) = ifc_files w
    /\ (forall tmp_path,
          unused_name candidates ".ifc" (disk w) = Ok tmp_path ->
          fst (upload_ifc parse uuid4 candidates file_ w)
          = HTTPError 500 ("Error processing IFC: " ++ str e)).
Proof.
  intros parse uuid4 candidates file_ w e Hparse.
  destruct (unused_name candidates ".ifc" (disk w)) as [tmp_path|e'] eqn:Hname.
  - rewrite (upload_rejected parse uuid4 candidates file_ w tmp_path e Hname Hparse).
    simpl. auto.
  - rewrite (upload_no_name parse uuid4 candidates file_ w e' Hname).
    simpl. repeat split. intros tmp_path [=].
Qed.

Lemma upload_unparseable_not_registered_witness :
  fst (upload_ifc Sample.parse "u-1" ["a"; "b"] Sample.bad_file
         (Sample.holding Sample.wall (Sample.scratch false)))
  = HTTPError 500 "Error processing IFC: Unable to parse IFC SPF header"
  /\ ifc_files (snd (upload_ifc Sample.parse "u-1" ["a"; "b"] Sample.bad_file
                       (Sample.holding Sample.wall (Sample.scratch false))))
     = [("m-1", Sample.entry_of Sample.wall)].
Proof.
  destruct (upload_unparseable_not_registered Sample.parse "u-1" ["a"; "b"]
              Sample.bad_file (Sample.holding Sample.wall (Sample.scratch false))
              (PyError "Unable to parse IFC SPF header") eq_refl)
    as (_ & Hstore & Hdetail).
  split; [exact (Hdetail "/tmp/tmpb.ifc" eq_refl) | exact Hstore].
Defined.

(** C7. When the engine cannot open the content just written, the
    scratch file stays: the path was free before the upload, holds the
    uploaded bytes after it, and no other file changed. *)
Theorem upload_unparseable_leaves_scratch_file :
  forall parse uuid4 candidates file_ w tmp_path e,
    unused_name candidates ".ifc" (disk w) = Ok tmp_path ->
    parse (upload_content file_) = Raise e ->
    status (fst (upload_ifc parse uuid4 candidates file_ w)) = 500
    /\ Dict.get tmp_path (disk w) = None
    /\ Dict.get tmp_path (disk (snd (upload_ifc parse uuid4 candidates file_ w)))
       = Some {| data := upload_content file_; unlink_refused := false |}
    /\ (forall p, p <> tmp_path ->
          Dict.get p (disk (snd (upload_ifc parse uuid4 candidates file_ w)))
          = Dict.get p (disk w)).
Proof.
  intros parse uuid4 candidates file_ w tmp_path e Hname Hparse.
  rewrite (upload_rejected parse uuid4 candidates file_ w tmp_path e Hname Hparse).
  simpl. split; [reflexivity|]. split; [|split].
  - exact (unused_name_fresh _ _ _ _ Hname).
  - apply DictFacts.get_set_eq.
  - intros p Hp. apply DictFacts.get_set_ne. congruence.
Qed.

Lemma upload_unparseable_leaves_scratch_file_witness :
  Dict.get "/tmp/tmpb.ifc"
    (disk (snd (upload_ifc Sample.parse "u-1" ["a"; "b"] Sample.bad_file
                  (Sample.holding Sample.wall (Sample.scratch false)))))
  = Some {| data := [x68; x69]; unlink_refused := false |}.
Proof.
  exact (proj1 (proj2 (proj2
           (upload_unparseable_leaves_scratch_file Sample.parse "u-1" ["a"; "b"]
              Sample.bad_file (Sample.holding Sample.wall (Sample.scratch false))
              "/tmp/tmpb.ifc" (PyError "Unable to parse IFC SPF header")
              eq_refl eq_refl)))).
Defined.

(** C8. An upload that is answered 200 opened a model and registered
    it; its project_name is "Unknown" when the model has no IfcProject
    and the Name of the first one otherwise.  A model without an
    IfcProject is accepted. *)
Theorem upload_project_name :
  forall parse uuid4 candidates file_ w,
    (forall body,
        fst (upload_ifc parse uuid4 candidates file_ w) = Ok200 body ->
        exists tmp_path f,
          parse (upload_content file_) = Ok f
          /\ Dict.get uuid4 (ifc_files (snd (upload_ifc parse uuid4 candidates file_ w)))
             = Some {| file := f; path := tmp_path;
                       filename := upload_filename file_ |}
          /\ (by_type f "IfcProject" = Ok [] -> project_name body = Some "Unknown")
          /\ (forall p rest,
                by_type f "IfcProject" = Ok (p :: rest) ->
                Name p = Ok (project_name body)))
    /\ (forall tmp_path f products,
          unused_name candidates ".ifc" (disk w) = Ok tmp_path ->
          parse (upload_content file_) = Ok f ->
          by_type f "IfcProject" = Ok [] ->
          by_type f "IfcProduct" = Ok products ->
          fst (upload_ifc parse uuid4 candidates file_ w)
          = Ok200 {| up_model_id := uuid4;
                     up_filename := upload_filename file_;
                     project_name := Some "Unknown";
                     total_elements := length products;
                     up_message := "IFC file uploaded successfully" |}).
Proof.
  intros parse uuid4 candidates file_ w. split.
  - intros body Hok.
    destruct (unused_name candidates ".ifc" (disk w)) as [tmp_path|e] eqn:Hname;
      [|rewrite (upload_no_name parse uuid4 candidates file_ w e Hname) in Hok;
        discriminate].
    destruct (parse (upload_content file_)) as [f|e] eqn:Hparse;
      [|rewrite (upload_rejected parse uuid4 candidates file_ w tmp_path e Hname Hparse)
          in Hok; discriminate].
    exists tmp_path, f. split; [reflexivity|].
    rewrite (upload_opened_state parse uuid4 candidates file_ w tmp_path f Hname Hparse).
    rewrite (upload_opened_response parse uuid4 candidates file_ w tmp_path f Hname Hparse)
      in Hok.
    simpl. split; [apply DictFacts.get_set_eq|].
    destruct (by_type f "IfcProject") as [[|p0 rest0]|e]; simpl in Hok;
      [| |discriminate].
    + destruct (by_type f "IfcProduct"); [|discriminate].
      injection Hok as <-. split; [reflexivity | discriminate].
    + destruct (Name p0) as [n|e] eqn:Hn; simpl in Hok; [|discriminate].
      destruct (by_type f "IfcProduct"); [|discriminate].
      injection Hok as <-. split; [discriminate|].
      intros p rest [= <- <-]. exact Hn.
  - intros tmp_path f products Hname Hparse Hnone Hproducts.
    rewrite (upload_opened_response parse uuid4 candidates file_ w tmp_path f Hname Hparse).
    rewrite Hnone. simpl. rewrite Hproducts. reflexivity.
Qed.

Lemma upload_project_name_witness :
  fst (upload_ifc Sample.parse_bare "u-1" ["a"; "b"] Sample.good_file Sample.blank)
  = Ok200 {| up_model_id := "u-1";
             up_filename := Some "office.ifc";
             project_name := Some "Unknown";
             total_elements := 1;
             up_message := "IFC file uploaded successfully" |}
  /\ exists body,
       fst (upload_ifc Sample.parse "u-1" ["a"; "b"] Sample.good_file Sample.blank)
       = Ok200 body
       /\ Name Sample.project = Ok (project_name body).
Proof.
  split.
  - exact (proj2 (upload_project_name Sample.parse_bare "u-1" ["a"; "b"]
                    Sample.good_file Sample.blank)
             "/tmp/tmpa.ifc" (Sample.model_of [] Sample.wall) [Sample.wall]
             eq_refl eq_refl eq_refl eq_refl).
  - eexists. split; [reflexivity|].
    destruct (proj1 (upload_project_name Sample.parse "u-1" ["a"; "b"]
                       Sample.good_file Sample.blank) _ eq_refl)
      as (tmp_path & f & Hparse & _ & _ & Hname).
    injection Hparse as <-. exact (Hname Sample.project [] eq_refl).
Defined.

Lemma remove_ok_releases model_id w body :
  fst (remove_model model_id w) = Ok200 body ->
  Dict.get model_id (ifc_files (snd (remove_model model_id w))) = None
  /\ (forall entry,
        Dict.get model_id (ifc_files w) = Some entry ->
        Dict.get (path entry) (disk (snd (remove_model model_id w))) = None).
Proof.
  destruct (Dict.get model_id (ifc_files w)) as [entry|] eqn:Hentry.
  - destruct (Dict.get (path entry) (disk w)) as [node|] eqn:Hnode.
    + destruct (unlink_refused node) eqn:Hflag.
      * rewrite (remove_refused _ _ _ Hentry node Hnode Hflag). discriminate.
      * rewrite (remove_unlinks _ _ _ Hentry node Hnode Hflag). simpl. intros _.
        split; [apply DictFacts.get_del_eq|].
        intros entry' [= <-]. apply DictFacts.get_del_eq.
    + rewrite (remove_missing_file _ _ _ Hentry Hnode). simpl. intros _.
      split; [apply DictFacts.get_del_eq|].
      intros entry' [= <-]. exact Hnode.
  - rewrite remove_unregistered by now apply DictFacts.not_mem_get.
    discriminate.
Qed.

Lemma listed_registered w item :
  In item (listed w) -> Dict.mem (item_model_id item) (ifc_files w) = true.
Proof.
  unfold listed, list_models, Dict.items. simpl. rewrite in_map_iff.
  intros ([k data] & <- & Hin). simpl. exact (DictFacts.In_mem _ _ _ Hin).
Qed.

Lemma registered_listed w model_id entry :
  Dict.get model_id (ifc_files w) = Some entry ->
  In {| item_model_id := model_id; item_filename := filename entry |} (listed w).
Proof.
  intros Hentry. unfold listed, list_models, Dict.items. simpl.
  apply in_map_iff. exists (model_id, entry).
  split; [reflexivity | exact (DictFacts.get_In _ _ _ Hentry)].
Qed.

Lemma serve_keeps_unregistered parse model_id r w :
  draws model_id r = false ->
  Dict.mem model_id (ifc_files w) = false ->
  Dict.mem model_id (ifc_files (serve parse r w)) = false.
Proof.
  intros Hdraw Habsent. destruct r as [uuid4 candidates file_|q|other|]; simpl;
    try exact Habsent.
  - destruct (upload_ifc_files parse uuid4 candidates file_ w) as [->|[entry ->]];
      [exact Habsent|].
    simpl in Hdraw. rewrite DictFacts.mem_set_ne; [exact Habsent|].
    intros ->. now rewrite String.eqb_refl in Hdraw.
  - destruct (remove_model_files other w) as [->| ->]; [exact Habsent|].
    now apply DictFacts.mem_del_false.
Qed.

Lemma serve_all_keeps_unregistered parse model_id rs :
  existsb (draws model_id) rs = false ->
  forall w,
    Dict.mem model_id (ifc_files w) = false ->
    Dict.mem model_id (ifc_files (serve_all parse rs w)) = false.
Proof.
  unfold serve_all. induction rs as [|r rs IH]; simpl; intros Hdraws w Habsent.
  - exact Habsent.
  - apply orb_false_iff in Hdraws as [Hr Hrs].
    apply IH; [exact Hrs|]. now apply serve_keeps_unregistered.
Qed.

(** C5. After a removal that was answered 200, and whatever requests
    follow that do not upload under the same identifier again, a query
    or a removal for that identifier is answered 404 and the listing
    has no item for it. *)
Theorem removed_model_stays_gone :
  forall parse model_id w body rs w',
    fst (remove_model model_id w) = Ok200 body ->
    existsb (draws model_id) rs = false ->
    serve_all parse rs (snd (remove_model model_id w)) = w' ->
    (forall g,
        get_element_by_guid {| model_id := model_id; guid := g |} w'
        = HTTPError 404 "Model not found")
    /\ remove_model model_id w' = (HTTPError 404 "Model not found", w')
    /\ (forall item, In item (listed w') -> item_model_id item <> model_id).
Proof.
  intros parse model_id w body rs w' Hok Hdraws <-.
  assert (Hgone : Dict.mem model_id
                    (ifc_files (serve_all parse rs (snd (remove_model model_id w))))
                  = false).
  { apply serve_all_keeps_unregistered; [exact Hdraws|].
    apply DictFacts.not_mem_get. exact (proj1 (remove_ok_releases _ _ _ Hok)). }
  split; [|split].
  - intros g. unfold get_element_by_guid. simpl. now rewrite Hgone.
  - now apply remove_unregistered.
  - intros item Hin Heq. apply listed_registered in Hin.
    rewrite Heq in Hin. congruence.
Qed.

Lemma removed_model_stays_gone_witness :
  get_element_by_guid Sample.ask
    (serve_all Sample.parse
       [ListModels; Upload "u-1" ["a"] Sample.good_file; Remove "m-1"; Query Sample.ask]
       (snd (remove_model "m-1" (Sample.holding Sample.wall (Sample.scratch false)))))
  = HTTPError 404 "Model not found".
Proof.
  exact (proj1 (removed_model_stays_gone Sample.parse "m-1"
                  (Sample.holding Sample.wall (Sample.scratch false))
                  {| message := "Model removed successfully" |}
                  [ListModels; Upload "u-1" ["a"] Sample.good_file; Remove "m-1";
                   Query Sample.ask]
                  _ eq_refl eq_refl eq_refl)
           "2O2Fr$t4X7Zf8NOew3FLOH").
Defined.

(** C6. Removing a registered model that is answered 200 leaves
    neither the entry nor its scratch file; a scratch file that is
    already missing is no error, and one that is there and may be
    unlinked is deleted. *)
Theorem remove_releases_scratch_file :
  forall model_id w entry,
    Dict.get model_id (ifc_files w) = Some entry ->
    (forall body,
        fst (remove_model model_id w) = Ok200 body ->
        Dict.get model_id (ifc_files (snd (remove_model model_id w))) = None
        /\ Dict.get (path entry) (disk (snd (remove_model model_id w))) = None)
    /\ (Dict.get (path entry) (disk w) = None ->
        remove_model model_id w
        = (removed,
           {| ifc_files := Dict.del model_id (ifc_files w); disk := disk w |}))
    /\ (forall node,
          Dict.get (path entry) (disk w) = Some node ->
          unlink_refused node = false ->
          remove_model model_id w
          = (removed,
             {| ifc_files := Dict.del model_id (ifc_files w);
                disk := Dict.del (path entry) (disk w) |})).
Proof.
  intros model_id w entry Hentry. split; [|split].
  - intros body Hok. destruct (remove_ok_releases _ _ _ Hok) as [Hgone Hfile].
    split; [exact Hgone | exact (Hfile entry Hentry)].
  - exact (remove_missing_file _ _ _ Hentry).
  - exact (remove_unlinks _ _ _ Hentry).
Qed.

Lemma remove_releases_scratch_file_witness :
  remove_model "m-1" (Sample.holding Sample.wall [])
  = (removed, Sample.blank)
  /\ remove_model "m-1" (Sample.holding Sample.wall (Sample.scratch false))
     = (removed, Sample.blank).
Proof.
  split.
  - exact (proj1 (proj2 (remove_releases_scratch_file "m-1"
                           (Sample.holding Sample.wall [])
                           (Sample.entry_of Sample.wall) eq_refl))
             eq_refl).
  - exact (proj2 (proj2 (remove_releases_scratch_file "m-1"
                           (Sample.holding Sample.wall (Sample.scratch false))
                           (Sample.entry_of Sample.wall) eq_refl))
             {| data := [x49; x53; x4f]; unlink_refused := false |}
             eq_refl eq_refl).
Defined.

(** C10. A removal of a registered model that is answered 500 was
    refused the deletion of the scratch file and changed nothing: the
    entry is still registered, listed, and queried as before. *)
Theorem failed_remove_keeps_entry :
  forall model_id w entry,
    Dict.get model_id (ifc_files w) = Some entry ->
    status (fst (remove_model model_id w)) = 500 ->
    snd (remove_model model_id w) = w
    /\ (exists node,
          Dict.get (path entry) (disk w) = Some node /\ unlink_refused node = true)
    /\ Dict.get model_id (ifc_files (snd (remove_model model_id w))) = Some entry
    /\ In {| item_model_id := model_id; item_filename := filename entry |}
         (listed (snd (remove_model model_id w)))
    /\ (forall request,
          get_element_by_guid request (snd (remove_model model_id w))
          = get_element_by_guid request w).
Proof.
  intros model_id w entry Hentry Hstatus.
  destruct (Dict.get (path entry) (disk w)) as [node|] eqn:Hnode.
  - destruct (unlink_refused node) eqn:Hflag.
    + rewrite (remove_refused _ _ _ Hentry node Hnode Hflag). simpl.
      split; [reflexivity|]. split; [eauto|]. split; [exact Hentry|].
      split; [now apply registered_listed | reflexivity].
    + rewrite (remove_unlinks _ _ _ Hentry node Hnode Hflag) in Hstatus.
      discriminate.
  - rewrite (remove_missing_file _ _ _ Hentry Hnode) in Hstatus. discriminate.
Qed.

Lemma failed_remove_keeps_entry_witness :
  snd (remove_model "m-1" (Sample.holding Sample.wall (Sample.scratch true)))
  = Sample.holding Sample.wall (Sample.scratch true).
Proof.
  exact (proj1 (failed_remove_keeps_entry "m-1"
                  (Sample.holding Sample.wall (Sample.scratch true))
                  (Sample.entry_of Sample.wall) eq_refl eq_refl)).
Defined.


(** * Further properties *)

(** ** More on dictionaries *)

Module DictMore.
Section Facts.
Context {V : Type}.
Implicit Types (d : Dict.t V) (k : string) (v : V).

Lemma set_fresh k v d : Dict.get k d = None -> Dict.set k v d = (d ++ [(k, v)])%list.
Proof.
  induction d as [|[k' v'] d IH]; simpl; [reflexivity|].
  destruct (String.eqb k k'); [discriminate|].
  intros H. now rewrite IH.
Qed.

Lemma del_absent k d : Dict.get k d = None -> Dict.del k d = d.
Proof.
  induction d as [|[k' v'] d IH]; simpl; [reflexivity|].
  destruct (String.eqb k k'); [discriminate|].
  intros H. now rewrite IH.
Qed.

Lemma del_set_fresh k v d : Dict.get k d = None -> Dict.del k (Dict.set k v d) = d.
Proof.
  induction d as [|[k' v'] d IH]; simpl.
  - now rewrite String.eqb_refl.
  - destruct (String.eqb k k') eqn:E; [discriminate|].
    intros H. simpl. rewrite E. now rewrite IH.
Qed.

Lemma keys_set_present k v d :
  Dict.mem k d = true -> map fst (Dict.set k v d) = map fst d.
Proof.
  unfold Dict.mem. induction d as [|[k' v'] d IH]; simpl; [discriminate|].
  destruct (String.eqb_spec k k') as [->|Hne]; simpl; [reflexivity|].
  intros H. now rewrite IH.
Qed.

Lemma In_set x k v d : In x (Dict.set k v d) -> x = (k, v) \/ In x d.
Proof.
  induction d as [|[k' v'] d IH]; simpl.
  - intros [<-|[]]. now left.
  - destruct (String.eqb k k'); simpl.
    + intros [<-|H]; auto.
    + intros [<-|H]; auto. destruct (IH H); auto.
Qed.

Lemma In_del x k d : In x (Dict.del k d) <-> In x d /\ fst x <> k.
Proof.
  induction d as [|[k' v'] d IH]; simpl; [tauto|].
  destruct (String.eqb_spec k k') as [->|Hne]; simpl.
  - rewrite IH. split.
    + intros [H1 H2]. auto.
    + intros [[<-|H1] H2]; [now destruct H2 | auto].
  - rewrite IH. split.
    + intros [<-|[H1 H2]]; simpl; auto.
    + intros [[<-|H1] H2]; auto.
Qed.

Lemma del_filter k d :
  Dict.del k d = filter (fun kv => negb (String.eqb (fst kv) k)) d.
Proof.
  induction d as [|[k' v'] d IH]; simpl; [reflexivity|].
  rewrite (String.eqb_sym k' k).
  destruct (String.eqb k k'); simpl; now rewrite IH.
Qed.

Lemma NoDup_keys_del k d : NoDup (map fst d) -> NoDup (map fst (Dict.del k d)).
Proof.
  induction d as [|[k' v'] d IH]; simpl; [auto|].
  intros H. inversion H as [|? ? Hnotin Hrest]; subst.
  destruct (String.eqb k k'); [auto|].
  simpl. constructor; [|auto].
  rewrite in_map_iff. intros ([k0 v0] & Hk & Hin). simpl in Hk. subst k0.
  apply In_del in Hin as [Hin _].
  apply Hnotin. apply in_map_iff. now exists (k', v0).
Qed.

Lemma NoDup_keys_set k v d : NoDup (map fst d) -> NoDup (map fst (Dict.set k v d)).
Proof.
  intros H. destruct (Dict.get k d) as [v0|] eqn:Hget.
  - rewrite keys_set_present; [exact H|]. unfold Dict.mem. now rewrite Hget.
  - rewrite set_fresh by assumption. rewrite map_app. simpl.
    apply NoDup_app; [exact H | repeat constructor; intros [] |].
    intros x Hx [<-|[]]. apply in_map_iff in Hx as ([k0 v0] & Hk & Hin).
    simpl in Hk. subst k0.
    pose proof (DictFacts.In_mem _ _ _ Hin) as Hmem.
    unfold Dict.mem in Hmem. now rewrite Hget in Hmem.
Qed.

End Facts.
End DictMore.

(** ** More on uploads *)

(** X1. The model is registered before its basic information is
    read: when the engine opens the content and then raises on the
    project or on the products, the upload is answered 500 and the
    model is registered and listed all the same. *)
Theorem upload_late_failure_registers :
  forall parse uuid4 candidates file_ w tmp_path f e,
    unused_name candidates ".ifc" (disk w) = Ok tmp_path ->
    parse (upload_content file_) = Ok f ->
    (by_type f "IfcProject" = Raise e
     \/ (exists p rest, by_type f "IfcProject" = Ok (p :: rest) /\ Name p = Raise e)
     \/ ((by_type f "IfcProject" = Ok []
          \/ exists p rest n, by_type f "IfcProject" = Ok (p :: rest) /\ Name p = Ok n)
         /\ by_type f "IfcProduct" = Raise e)) ->
    fst (upload_ifc parse uuid4 candidates file_ w)
    = HTTPError 500 ("Error processing IFC: " ++ str e)
    /\ Dict.get uuid4 (ifc_files (snd (upload_ifc parse uuid4 candidates file_ w)))
       = Some {| file := f; path := tmp_path; filename := upload_filename file_ |}
    /\ In {| item_model_id := uuid4; item_filename := upload_filename file_ |}
         (listed (snd (upload_ifc parse uuid4 candidates file_ w))).
Proof.
  intros parse uuid4 candidates file_ w tmp_path f e Hname Hparse Hlate.
  assert (Hentry :
            Dict.get uuid4 (ifc_files (snd (upload_ifc parse uuid4 candidates file_ w)))
            = Some {| file := f; path := tmp_path; filename := upload_filename file_ |}).
  { rewrite (upload_opened_state parse uuid4 candidates file_ w tmp_path f Hname Hparse).
    apply DictFacts.get_set_eq. }
  split; [|split; [exact Hentry | exact (registered_listed _ _ _ Hentry)]].
  rewrite (upload_opened_response parse uuid4 candidates file_ w tmp_path f Hname Hparse).
  destruct Hlate as [H|[(p & rest & H & Hn)|[[H|(p & rest & n & H & Hn)] Hp]]];
    rewrite H; simpl; try rewrite Hn; simpl; try rewrite Hp; reflexivity.
Qed.

Lemma upload_late_failure_registers_witness :
  fst (upload_ifc Cases.parse_odd "u-1" ["a"] Sample.good_file Sample.blank)
  = HTTPError 500
      "Error processing IFC: Entity with name 'IfcProduct' not found in schema"
  /\ listed (snd (upload_ifc Cases.parse_odd "u-1" ["a"] Sample.good_file Sample.blank))
     = [{| item_model_id := "u-1"; item_filename := Some "office.ifc" |}].
Proof.
  destruct (upload_late_failure_registers Cases.parse_odd "u-1" ["a"]
              Sample.good_file Sample.blank "/tmp/tmpa.ifc" Cases.odd_schema_model
              (PyError "Entity with name 'IfcProduct' not found in schema")
              eq_refl eq_refl
              (or_intror (or_intror
                 (conj (or_intror
                          (ex_intro _ Sample.project
                             (ex_intro _ []
                                (ex_intro _ (Some "Office Building")
                                   (conj eq_refl eq_refl)))))
                       eq_refl))))
    as (Hresponse & _ & _).
  split; [exact Hresponse | reflexivity].
Defined.

(** X2. An upload answered 200 returns the identifier it drew, the
    file name it was given and the number of products of the opened
    model, and a query under the returned identifier is answered from
    that model alone. *)
Theorem uploaded_model_is_queried :
  forall parse uuid4 candidates file_ w body,
    fst (upload_ifc parse uuid4 candidates file_ w) = Ok200 body ->
    up_model_id body = uuid4
    /\ up_filename body = upload_filename file_
    /\ up_message body = "IFC file uploaded successfully"
    /\ exists f products,
         parse (upload_content file_) = Ok f
         /\ by_type f "IfcProduct" = Ok products
         /\ total_elements body = length products
         /\ forall g,
              get_element_by_guid {| model_id := up_model_id body; guid := g |}
                (snd (upload_ifc parse uuid4 candidates file_ w))
              = get_element_by_guid {| model_id := uuid4; guid := g |}
                  {| ifc_files :=
                       [(uuid4, {| file := f; path := ""; filename := None |})];
                     disk := [] |}.
Proof.
  intros parse uuid4 candidates file_ w body Hok.
  destruct (unused_name candidates ".ifc" (disk w)) as [tmp_path|e] eqn:Hname;
    [|rewrite (upload_no_name parse uuid4 candidates file_ w e Hname) in Hok;
      discriminate].
  destruct (parse (upload_content file_)) as [f|e] eqn:Hparse;
    [|rewrite (upload_rejected parse uuid4 candidates file_ w tmp_path e Hname Hparse)
        in Hok; discriminate].
  rewrite (upload_opened_response parse uuid4 candidates file_ w tmp_path f Hname Hparse)
    in Hok.
  assert (Hbody : up_model_id body = uuid4
                  /\ up_filename body = upload_filename file_
                  /\ up_message body = "IFC file uploaded successfully"
                  /\ exists products,
                       by_type f "IfcProduct" = Ok products
                       /\ total_elements body = length products).
  { destruct (by_type f "IfcProject") as [[|p rest]|e]; simpl in Hok;
      [| |discriminate].
    - destruct (by_type f "IfcProduct") as [products|e]; [|discriminate].
      injection Hok as <-. simpl. eauto 6.
    - destruct (Name p) as [n|e]; simpl in Hok; [|discriminate].
      destruct (by_type f "IfcProduct") as [products|e]; [|discriminate].
      injection Hok as <-. simpl. eauto 6. }
  destruct Hbody as (Hid & Hfile & Hmsg & products & Hproducts & Htotal).
  repeat (split; [assumption|]).
  exists f, products. repeat (split; [first [reflexivity | assumption]|]).
  intros g. rewrite Hid.
  rewrite (upload_opened_state parse uuid4 candidates file_ w tmp_path f Hname Hparse).
  unfold get_element_by_guid, Dict.mem, Dict.subscript. simpl.
  rewrite DictFacts.get_set_eq, String.eqb_refl. reflexivity.
Qed.

Lemma uploaded_model_is_queried_witness :
  exists body,
    fst (upload_ifc Sample.parse "u-1" ["a"; "b"] Cases.second_file
           (Sample.holding Sample.counted_wall (Sample.scratch false)))
    = Ok200 body
    /\ total_elements body = 1
    /\ get_element_by_guid
         {| model_id := up_model_id body; guid := "2O2Fr$t4X7Zf8NOew3FLOH" |}
         (snd (upload_ifc Sample.parse "u-1" ["a"; "b"] Cases.second_file
                 (Sample.holding Sample.counted_wall (Sample.scratch false))))
       = Ok200 (Sample.view_of Sample.wall).
Proof.
  eexists. split; [reflexivity|].
  destruct (uploaded_model_is_queried Sample.parse "u-1" ["a"; "b"] Cases.second_file
              (Sample.holding Sample.counted_wall (Sample.scratch false)) _ eq_refl)
    as (_ & _ & _ & f & products & Hparse & Hproducts & Htotal & Hquery).
  injection Hparse as <-. injection Hproducts as <-.
  split; [exact Htotal|]. rewrite Hquery. reflexivity.
Defined.

(** X3. An upload, however it ends, leaves every entry under another
    identifier and every file already on disk as they were. *)
Theorem upload_leaves_others :
  forall parse uuid4 candidates file_ w,
    (forall other,
        other <> uuid4 ->
        Dict.get other (ifc_files (snd (upload_ifc parse uuid4 candidates file_ w)))
        = Dict.get other (ifc_files w))
    /\ (forall p node,
          Dict.get p (disk w) = Some node ->
          Dict.get p (disk (snd (upload_ifc parse uuid4 candidates file_ w)))
          = Some node).
Proof.
  intros parse uuid4 candidates file_ w.
  destruct (unused_name candidates ".ifc" (disk w)) as [tmp_path|e] eqn:Hname.
  - assert (Hdisk : forall p node,
               Dict.get p (disk w) = Some node ->
               Dict.get p (Dict.set tmp_path
                             {| data := upload_content file_; unlink_refused := false |}
                             (disk w)) = Some node).
    { intros p node Hp. rewrite DictFacts.get_set_ne; [exact Hp|].
      intros ->. rewrite (unused_name_fresh _ _ _ _ Hname) in Hp. discriminate. }
    destruct (parse (upload_content file_)) as [f|e] eqn:Hparse.
    + rewrite (upload_opened_state parse uuid4 candidates file_ w tmp_path f Hname Hparse).
      simpl. split; [|exact Hdisk].
      intros other Hother. apply DictFacts.get_set_ne. congruence.
    + rewrite (upload_rejected parse uuid4 candidates file_ w tmp_path e Hname Hparse).
      simpl. split; [reflexivity | exact Hdisk].
  - rewrite (upload_no_name parse uuid4 candidates file_ w e Hname). simpl. auto.
Qed.

Lemma upload_leaves_others_witness :
  Dict.get "m-1"
    (ifc_files (snd (upload_ifc Sample.parse "u-1" ["a"; "b"] Sample.good_file
                       (Sample.holding Sample.wall (Sample.scratch true)))))
  = Some (Sample.entry_of Sample.wall)
  /\ Dict.get "/tmp/tmpa.ifc"
       (disk (snd (upload_ifc Sample.parse "u-1" ["a"; "b"] Sample.good_file
                     (Sample.holding Sample.wall (Sample.scratch true)))))
     = Some {| data := [x49; x53; x4f]; unlink_refused := true |}.
Proof.
  destruct (upload_leaves_others Sample.parse "u-1" ["a"; "b"] Sample.good_file
              (Sample.holding Sample.wall (Sample.scratch true))) as [Hstore Hdisk].
  split.
  - rewrite (Hstore "m-1"); [reflexivity | discriminate].
  - exact (Hdisk "/tmp/tmpa.ifc" _ eq_refl).
Defined.

(** X4. An upload answered 200 under an identifier that was not
    registered adds one item, last, to the listing and changes no
    other item. *)
Theorem upload_appends_to_listing :
  forall parse uuid4 candidates file_ w body,
    fst (upload_ifc parse uuid4 candidates file_ w) = Ok200 body ->
    Dict.mem uuid4 (ifc_files w) = false ->
    listed (snd (upload_ifc parse uuid4 candidates file_ w))
    = (listed w
       ++ [{| item_model_id := up_model_id body;
              item_filename := up_filename body |}])%list.
Proof.
  intros parse uuid4 candidates file_ w body Hok Hfresh.
  destruct (unused_name candidates ".ifc" (disk w)) as [tmp_path|e] eqn:Hname;
    [|rewrite (upload_no_name parse uuid4 candidates file_ w e Hname) in Hok;
      discriminate].
  destruct (parse (upload_content file_)) as [f|e] eqn:Hparse;
    [|rewrite (upload_rejected parse uuid4 candidates file_ w tmp_path e Hname Hparse)
        in Hok; discriminate].
  rewrite (upload_opened_response parse uuid4 candidates file_ w tmp_path f Hname Hparse)
    in Hok.
  rewrite (upload_opened_state parse uuid4 candidates file_ w tmp_path f Hname Hparse).
  unfold listed, list_models, Dict.items. simpl.
  rewrite DictMore.set_fresh by now apply DictFacts.not_mem_get.
  rewrite map_app. simpl. f_equal. f_equal.
  destruct (by_type f "IfcProject") as [[|p rest]|e]; simpl in Hok; [| |discriminate].
  - destruct (by_type f "IfcProduct"); [|discriminate]. now injection Hok as <-.
  - destruct (Name p); simpl in Hok; [|discriminate].
    destruct (by_type f "IfcProduct"); [|discriminate]. now injection Hok as <-.
Qed.

Lemma upload_appends_to_listing_witness :
  listed (snd (upload_ifc Sample.parse "u-1" ["a"; "b"] Cases.second_file
                 (Sample.holding Sample.wall (Sample.scratch false))))
  = [{| item_model_id := "m-1"; item_filename := Some "office.ifc" |};
     {| item_model_id := "u-1"; item_filename := Some "annex.ifc" |}].
Proof.
  exact (upload_appends_to_listing Sample.parse "u-1" ["a"; "b"] Cases.second_file
           (Sample.holding Sample.wall (Sample.scratch false)) _ eq_refl eq_refl).
Defined.

Lemma listed_ids w : map item_model_id (listed w) = map fst (ifc_files w).
Proof.
  unfold listed, list_models, Dict.items. simpl. rewrite map_map.
  apply map_ext. intros [k v]. reflexivity.
Qed.

(** X5. An upload that draws an identifier already registered takes
    the entry over in place: the listing keeps its identifiers and
    their order, the identifier now names the new model and its new
    scratch file, and the scratch file of the model it replaced stays
    on disk. *)
Theorem upload_over_registered_identifier :
  forall parse uuid4 candidates file_ w old node tmp_path f,
    Dict.get uuid4 (ifc_files w) = Some old ->
    Dict.get (path old) (disk w) = Some node ->
    unused_name candidates ".ifc" (disk w) = Ok tmp_path ->
    parse (upload_content file_) = Ok f ->
    Dict.get uuid4 (ifc_files (snd (upload_ifc parse uuid4 candidates file_ w)))
    = Some {| file := f; path := tmp_path; filename := upload_filename file_ |}
    /\ tmp_path <> path old
    /\ Dict.get (path old) (disk (snd (upload_ifc parse uuid4 candidates file_ w)))
       = Some node
    /\ map item_model_id (listed (snd (upload_ifc parse uuid4 candidates file_ w)))
       = map item_model_id (listed w).
Proof.
  intros parse uuid4 candidates file_ w old node tmp_path f Hold Hnode Hname Hparse.
  assert (Hne : tmp_path <> path old).
  { intros Heq. rewrite <- Heq, (unused_name_fresh _ _ _ _ Hname) in Hnode.
    discriminate. }
  rewrite !listed_ids.
  rewrite (upload_opened_state parse uuid4 candidates file_ w tmp_path f Hname Hparse).
  simpl. split; [apply DictFacts.get_set_eq|]. split; [exact Hne|]. split.
  - rewrite DictFacts.get_set_ne; [exact Hnode | exact Hne].
  - apply DictMore.keys_set_present. unfold Dict.mem. now rewrite Hold.
Qed.

Lemma upload_over_registered_identifier_witness :
  Dict.get "/tmp/tmpa.ifc"
    (disk (snd (upload_ifc Sample.parse "m-1" ["a"; "b"; "c"] Cases.second_file
                  Cases.two_models)))
  = Some {| data := [x49; x53; x4f]; unlink_refused := false |}
  /\ map item_model_id
       (listed (snd (upload_ifc Sample.parse "m-1" ["a"; "b"; "c"] Cases.second_file
                       Cases.two_models)))
     = ["m-1"; "m-2"].
Proof.
  destruct (upload_over_registered_identifier Sample.parse "m-1" ["a"; "b"; "c"]
              Cases.second_file Cases.two_models (Sample.entry_of Sample.wall)
              {| data := [x49; x53; x4f]; unlink_refused := false |}
              "/tmp/tmpc.ifc" Sample.model eq_refl eq_refl eq_refl eq_refl)
    as (_ & _ & Hfile & Hids).
  split; [exact Hfile | exact Hids].
Defined.

(** X6. Uploading and removing again undoes itself: when the content
    opens and the identifier drawn was not registered, removing that
    identifier right after the upload is answered 200 and gives back
    the state before the upload, entries and disk alike, whether or not
    the upload itself was answered 200. *)
Theorem upload_then_remove_restores :
  forall parse uuid4 candidates file_ w tmp_path f,
    Dict.mem uuid4 (ifc_files w) = false ->
    unused_name candidates ".ifc" (disk w) = Ok tmp_path ->
    parse (upload_content file_) = Ok f ->
    remove_model uuid4 (snd (upload_ifc parse uuid4 candidates file_ w))
    = (removed, w).
Proof.
  intros parse uuid4 candidates file_ w tmp_path f Hfresh Hname Hparse.
  rewrite (upload_opened_state parse uuid4 candidates file_ w tmp_path f Hname Hparse).
  rewrite (remove_unlinks uuid4
             {| ifc_files :=
                  Dict.set uuid4
                    {| file := f; path := tmp_path; filename := upload_filename file_ |}
                    (ifc_files w);
                disk :=
                  Dict.set tmp_path
                    {| data := upload_content file_; unlink_refused := false |}
                    (disk w) |}
             {| file := f; path := tmp_path; filename := upload_filename file_ |}
             (DictFacts.get_set_eq _ _ _)
             {| data := upload_content file_; unlink_refused := false |}
             (DictFacts.get_set_eq _ _ _) eq_refl).
  simpl. rewrite DictMore.del_set_fresh by now apply DictFacts.not_mem_get.
  rewrite DictMore.del_set_fresh by exact (unused_name_fresh _ _ _ _ Hname).
  destruct w. reflexivity.
Qed.

Lemma upload_then_remove_restores_witness :
  remove_model "u-1"
    (snd (upload_ifc Cases.parse_odd "u-1" ["a"; "b"] Sample.good_file
            (Sample.holding Sample.wall (Sample.scratch true))))
  = (removed, Sample.holding Sample.wall (Sample.scratch true)).
Proof.
  exact (upload_then_remove_restores Cases.parse_odd "u-1" ["a"; "b"] Sample.good_file
           (Sample.holding Sample.wall (Sample.scratch true))
           "/tmp/tmpb.ifc" Cases.odd_schema_model eq_refl eq_refl eq_refl).
Defined.

(** ** More on removals *)

(** X7. A removal is answered 404 exactly when the identifier is not
    registered, 500 exactly when it is registered and its scratch file
    is on disk and may not be unlinked, and 200 otherwise. *)
Theorem remove_status_cases :
  forall model_id w,
    (status (fst (remove_model model_id w)) = 404
     <-> Dict.mem model_id (ifc_files w) = false)
    /\ (status (fst (remove_model model_id w)) = 500
        <-> exists entry node,
              Dict.get model_id (ifc_files w) = Some entry
              /\ Dict.get (path entry) (disk w) = Some node
              /\ unlink_refused node = true)
    /\ (status (fst (remove_model model_id w)) = 200
        \/ status (fst (remove_model model_id w)) = 404
        \/ status (fst (remove_model model_id w)) = 500).
Proof.
  intros model_id w.
  destruct (Dict.get model_id (ifc_files w)) as [entry|] eqn:Hentry.
  - assert (Hmem : Dict.mem model_id (ifc_files w) = true)
      by (unfold Dict.mem; now rewrite Hentry).
    destruct (Dict.get (path entry) (disk w)) as [node|] eqn:Hnode.
    + destruct (unlink_refused node) eqn:Hflag.
      * rewrite (remove_refused _ _ _ Hentry node Hnode Hflag). simpl.
        split; [split; [discriminate | congruence]|].
        split; [split; [eauto | reflexivity] | auto].
      * rewrite (remove_unlinks _ _ _ Hentry node Hnode Hflag). simpl.
        split; [split; [discriminate | congruence]|].
        split; [split; [discriminate|] | auto].
        intros (entry' & node' & [= <-] & Hnode' & Hflag'). congruence.
    + rewrite (remove_missing_file _ _ _ Hentry Hnode). simpl.
      split; [split; [discriminate | congruence]|].
      split; [split; [discriminate|] | auto].
      intros (entry' & node' & [= <-] & Hnode' & _). congruence.
  - assert (Hmem : Dict.mem model_id (ifc_files w) = false)
      by now apply DictFacts.not_mem_get.
    rewrite (remove_unregistered _ _ Hmem). simpl.
    split; [split; auto|]. split; [split; [discriminate|] | auto].
    intros (entry' & node' & [=] & _).
Qed.

Lemma remove_status_cases_witness :
  Dict.mem "m-7" (ifc_files (Sample.holding Sample.wall (Sample.scratch true))) = false
  /\ exists entry node,
       Dict.get "m-1" (ifc_files (Sample.holding Sample.wall (Sample.scratch true)))
       = Some entry
       /\ Dict.get (path entry) (disk (Sample.holding Sample.wall (Sample.scratch true)))
          = Some node
       /\ unlink_refused node = true.
Proof.
  split.
  - exact (proj1 (proj1 (remove_status_cases "m-7"
                           (Sample.holding Sample.wall (Sample.scratch true))))
             eq_refl).
  - exact (proj1 (proj1 (proj2 (remove_status_cases "m-1"
                                  (Sample.holding Sample.wall (Sample.scratch true)))))
             eq_refl).
Defined.

(** X8. A removal, however it ends, leaves every entry under another
    identifier and every file other than the scratch file of the
    entry it removes as they were; for an identifier that is not
    registered it changes nothing. *)
Theorem remove_leaves_others :
  forall model_id w,
    (forall other,
        other <> model_id ->
        Dict.get other (ifc_files (snd (remove_model model_id w)))
        = Dict.get other (ifc_files w))
    /\ (forall entry p,
          Dict.get model_id (ifc_files w) = Some entry ->
          p <> path entry ->
          Dict.get p (disk (snd (remove_model model_id w))) = Dict.get p (disk w))
    /\ (Dict.mem model_id (ifc_files w) = false ->
        snd (remove_model model_id w) = w).
Proof.
  intros model_id w. split; [|split].
  - intros other Hother.
    destruct (remove_model_files model_id w) as [->| ->]; [reflexivity|].
    apply DictFacts.get_del_ne. congruence.
  - intros entry p Hentry Hp.
    destruct (Dict.get (path entry) (disk w)) as [node|] eqn:Hnode.
    + destruct (unlink_refused node) eqn:Hflag.
      * now rewrite (remove_refused _ _ _ Hentry node Hnode Hflag).
      * rewrite (remove_unlinks _ _ _ Hentry node Hnode Hflag). simpl.
        apply DictFacts.get_del_ne. congruence.
    + now rewrite (remove_missing_file _ _ _ Hentry Hnode).
  - intros Hmem. now rewrite (remove_unregistered _ _ Hmem).
Qed.

Lemma remove_leaves_others_witness :
  Dict.get "m-2" (ifc_files (snd (remove_model "m-1" Cases.two_models)))
  = Dict.get "m-2" (ifc_files Cases.two_models)
  /\ Dict.get "/tmp/tmpb.ifc" (disk (snd (remove_model "m-1" Cases.two_models)))
     = Dict.get "/tmp/tmpb.ifc" (disk Cases.two_models)
  /\ snd (remove_model "m-3" Cases.two_models) = Cases.two_models.
Proof.
  destruct (remove_leaves_others "m-1" Cases.two_models) as (Hstore & Hdisk & _).
  split; [|split].
  - apply Hstore. discriminate.
  - apply (Hdisk (Sample.entry_of Sample.wall)); [reflexivity | discriminate].
  - exact (proj2 (proj2 (remove_leaves_others "m-3" Cases.two_models)) eq_refl).
Defined.

Lemma items_del k (d : Dict.t ModelEntry) :
  map (fun '(model_id, data) =>
         {| item_model_id := model_id; item_filename := filename data |})
      (Dict.del k d)
  = filter (fun item => negb (String.eqb (item_model_id item) k))
      (map (fun '(model_id, data) =>
              {| item_model_id := model_id; item_filename := filename data |})
           d).
Proof.
  induction d as [|[k' v'] d IH]; simpl; [reflexivity|].
  rewrite (String.eqb_sym k' k).
  destruct (String.eqb k k'); simpl; [exact IH | now rewrite IH].
Qed.

(** X9. A removal answered 200 takes the items of that identifier
    out of the listing and keeps the others in their order. *)
Theorem remove_filters_listing :
  forall model_id w body,
    fst (remove_model model_id w) = Ok200 body ->
    listed (snd (remove_model model_id w))
    = filter (fun item => negb (String.eqb (item_model_id item) model_id)) (listed w).
Proof.
  intros model_id w body Hok.
  assert (Hfiles : ifc_files (snd (remove_model model_id w))
                   = Dict.del model_id (ifc_files w)).
  { destruct (Dict.get model_id (ifc_files w)) as [entry|] eqn:Hentry.
    - destruct (Dict.get (path entry) (disk w)) as [node|] eqn:Hnode.
      + destruct (unlink_refused node) eqn:Hflag.
        * rewrite (remove_refused _ _ _ Hentry node Hnode Hflag) in Hok. discriminate.
        * now rewrite (remove_unlinks _ _ _ Hentry node Hnode Hflag).
      + now rewrite (remove_missing_file _ _ _ Hentry Hnode).
    - rewrite remove_unregistered in Hok by now apply DictFacts.not_mem_get.
      discriminate. }
  unfold listed, list_models, Dict.items. simpl. rewrite Hfiles.
  apply items_del.
Qed.

Lemma remove_filters_listing_witness :
  listed (snd (remove_model "m-1" Cases.two_models))
  = [{| item_model_id := "m-2"; item_filename := Some "annex.ifc" |}].
Proof.
  exact (remove_filters_listing "m-1" Cases.two_models _ eq_refl).
Defined.

(** ** More on queries *)

Lemma read_properties_whole element :
  ~ read_fails (ObjectType element) -> ~ read_fails (Tag element) ->
  ~ read_fails (Description element) ->
  read_properties element
  = Ok [("ObjectType", null_if_absent (ObjectType element));
        ("Tag", null_if_absent (Tag element));
        ("Description", null_if_absent (Description element))].
Proof.
  unfold read_properties, getattr_or, read_fails. intros Ho Ht Hd.
  destruct (ObjectType element) as [o|[m|c d|m]]; simpl;
    try (exfalso; apply Ho; eexists; split; [reflexivity | discriminate]);
    (destruct (Tag element) as [t|[m'|c' d'|m']]; simpl;
     try (exfalso; apply Ht; eexists; split; [reflexivity | discriminate]));
    (destruct (Description element) as [x|[m2|c2 d2|m2]]; simpl;
     try (exfalso; apply Hd; eexists; split; [reflexivity | discriminate]));
    reflexivity.
Qed.

(** X10. In a view answered 200 for an element none of whose three
    attribute reads fails, the properties are exactly ObjectType, Tag
    and Description, in this order, each with the value read or null
    when the element has no such attribute; and the name is the Name
    read, or null when the element has no Name. *)
Theorem absent_attributes_are_null :
  forall w request entry element view,
    Dict.get (model_id request) (ifc_files w) = Some entry ->
    by_guid (file entry) (guid request) = Ok (Some element) ->
    get_element_by_guid request w = Ok200 view ->
    (~ read_fails (ObjectType element) -> ~ read_fails (Tag element) ->
     ~ read_fails (Description element) ->
     properties view
     = [("ObjectType", null_if_absent (ObjectType element));
        ("Tag", null_if_absent (Tag element));
        ("Description", null_if_absent (Description element))])
    /\ el_name view = match Name element with Ok n => n | Raise _ => None end.
Proof.
  intros w request entry element view Hentry Hfound Hquery.
  destruct (project_element_returned _ _
              (query_returned _ _ _ _ _ Hentry Hfound Hquery))
    as (g & n & t & _ & Hn & _ & ->).
  simpl. split.
  - intros Ho Ht Hd. now rewrite (read_properties_whole element Ho Ht Hd).
  - unfold getattr_or in Hn.
    destruct (Name element) as [n'|[m|c d|m]]; simpl in Hn; congruence.
Qed.

Lemma absent_attributes_are_null_witness :
  properties (Sample.view_of Cases.plain_wall)
  = [("ObjectType", PStr "Basic Wall"); ("Tag", PNone); ("Description", PNone)]
  /\ el_name (Sample.view_of Cases.plain_wall) = None.
Proof.
  destruct (absent_attributes_are_null
              (Sample.holding Cases.plain_wall (Sample.scratch false))
              Sample.ask (Sample.entry_of Cases.plain_wall) Cases.plain_wall
              (Sample.view_of Cases.plain_wall) eq_refl eq_refl eq_refl)
    as [Hprops Hname].
  split; [|exact Hname].
  apply Hprops; intros (e & He & Hne); try discriminate He.
  injection He as <-. exact (Hne _ eq_refl).
Defined.

(** X11. Whatever the quantity step does, it touches no property set
    under another name: in a view answered 200 every key other than
    "Quantities" has the set property-set retrieval gave it (none when
    retrieval failed). *)
Theorem other_psets_untouched :
  forall w request entry element view k,
    Dict.get (model_id request) (ifc_files w) = Some entry ->
    by_guid (file entry) (guid request) = Ok (Some element) ->
    get_element_by_guid request w = Ok200 view ->
    k <> "Quantities" ->
    Dict.get k (psets view) = Dict.get k (or_empty (get_psets element)).
Proof.
  intros w request entry element view k Hentry Hfound Hquery Hk.
  destruct (project_element_returned _ _
              (query_returned _ _ _ _ _ Hentry Hfound Hquery))
    as (g & n & t & _ & _ & _ & ->).
  simpl. unfold merge_quantities.
  destruct (Dict.truthy (or_empty (collect_quantities element))); [|reflexivity].
  apply DictFacts.get_set_ne. congruence.
Qed.

Lemma other_psets_untouched_witness :
  Dict.get "Pset_WallCommon" (psets (Sample.view_of Cases.shadowing_wall))
  = Some [("IsExternal", PBool true)].
Proof.
  exact (other_psets_untouched
           (Sample.holding Cases.shadowing_wall (Sample.scratch false))
           Sample.ask (Sample.entry_of Cases.shadowing_wall) Cases.shadowing_wall
           (Sample.view_of Cases.shadowing_wall) "Pset_WallCommon"
           eq_refl eq_refl eq_refl ltac:(discriminate)).
Defined.

Lemma for_in_app {A S : Type} (body : S -> A -> exc S) (l1 l2 : list A) (s : S) :
  for_in (l1 ++ l2)%list body s
  = match for_in l1 body s with
    | Ok s' => for_in l2 body s'
    | Raise e => Raise e
    end.
Proof.
  revert s. induction l1 as [|x l1 IH]; intros s; simpl; [reflexivity|].
  destruct (body s x); [apply IH | reflexivity].
Qed.

(** X12. Of the quantities of one set that share a name, the last
    one with a unit is the one recorded: when the loop over a set runs
    through, a quantity after which no quantity with a unit has the
    same name is in the mapping with its own value and unit. *)
Theorem last_quantity_of_a_name_wins :
  forall before q after quantities quantities' n v u,
    for_in (before ++ q :: after)%list record_quantity quantities = Ok quantities' ->
    unit_for q v u ->
    quantity_Name q = Ok n ->
    (forall q' v' u', In q' after -> unit_for q' v' u' -> quantity_Name q' <> Ok n) ->
    Dict.get n quantities' = Some (value_unit v u).
Proof.
  intros before q after quantities quantities' n v u Hrun Hu Hn Hafter.
  rewrite for_in_app in Hrun.
  destruct (for_in before record_quantity quantities) as [d0|e]; [|discriminate].
  simpl in Hrun. rewrite (record_quantity_unit d0 q n v u Hu Hn) in Hrun.
  assert (Hstart : Dict.get n (Dict.set n (value_unit v u) d0) = Some (value_unit v u))
    by apply DictFacts.get_set_eq.
  revert Hrun Hstart. generalize (Dict.set n (value_unit v u) d0).
  induction after as [|q' after IH]; intros d Hrun Hd; simpl in Hrun.
  - now injection Hrun as <-.
  - destruct (record_quantity d q') as [d'|e] eqn:Hround; [|discriminate].
    apply (IH (fun q'' v'' u'' Hin => Hafter q'' v'' u'' (or_intror Hin)) d' Hrun).
    destruct (record_quantity_cases _ _ _ Hround)
      as [(n' & v' & u' & Hu' & Hn' & ->)|(_ & _ & _ & ->)]; [|exact Hd].
    rewrite DictFacts.get_set_ne; [exact Hd|].
    intros ->. exact (Hafter q' v' u' (or_introl eq_refl) Hu' Hn').
Qed.

Lemma last_quantity_of_a_name_wins_witness :
  Dict.get "Length"
    (or_empty (for_in [Sample.count_2; Sample.length_5; Cases.renamed_area;
                       Sample.volume_3]
                 record_quantity Dict.empty))
  = Some (value_unit (PFloat (7 # 1)) "m²").
Proof.
  apply (last_quantity_of_a_name_wins
           [Sample.count_2; Sample.length_5] Cases.renamed_area [Sample.volume_3]
           Dict.empty _ "Length" (PFloat (7 # 1)) "m²" eq_refl).
  - right. left. split; [eexists; reflexivity | split; reflexivity].
  - reflexivity.
  - intros q' v' u' [<-|[]] _. discriminate.
Defined.

(** X13. One unreadable name discards every quantity: when a reached
    quantity carries a value but reading its name raises, the quantity
    loops raise, and a view answered 200 for the element has its psets
    exactly as property-set retrieval gave them, without the
    quantities of the other sets. *)
Theorem unreadable_name_discards_quantities :
  forall element q v u e,
    reached element q ->
    unit_for q v u ->
    quantity_Name q = Raise e ->
    (exists e', collect_quantities element = Raise e')
    /\ (forall w request entry view,
          Dict.get (model_id request) (ifc_files w) = Some entry ->
          by_guid (file entry) (guid request) = Ok (Some element) ->
          get_element_by_guid request w = Ok200 view ->
          psets view = or_empty (get_psets element)).
Proof.
  intros element q v u e Hq Hu Hn.
  assert (Hraise : exists e', collect_quantities element = Raise e').
  { destruct (collect_quantities element) as [m|e'] eqn:Hrun; [exfalso|eauto].
    destruct (collect_quantities_recorded _ _ Hrun) as [_ Hcomplete].
    destruct (Hcomplete q v u Hq Hu) as (n & x & Hn' & _). congruence. }
  split; [exact Hraise|].
  intros w request entry view Hentry Hfound Hquery.
  destruct (project_element_returned _ _
              (query_returned _ _ _ _ _ Hentry Hfound Hquery))
    as (g & n & t & _ & _ & _ & ->).
  simpl. destruct Hraise as [e' ->]. reflexivity.
Qed.

Lemma unreadable_name_discards_quantities_witness :
  psets (Sample.view_of Cases.spoiled_wall) = Sample.wall_psets.
Proof.
  refine (proj2 (unreadable_name_discards_quantities Cases.spoiled_wall
                   Cases.nameless_length (PFloat (2 # 1)) "m"
                   (PyError "invalid attribute index") _ _ eq_refl)
            (Sample.holding Cases.spoiled_wall (Sample.scratch false))
            Sample.ask (Sample.entry_of Cases.spoiled_wall)
            (Sample.view_of Cases.spoiled_wall) eq_refl eq_refl eq_refl).
  - eexists _, (Sample.defines (Sample.element_quantity [Cases.nameless_length])).
    split; [reflexivity|]. split; [right; left; reflexivity|].
    eexists _, _. repeat (split; [reflexivity|]). left. reflexivity.
  - left. split; reflexivity.
Defined.

(** ** An invariant of the process state *)

Section Consistency.
Import DictFacts.

Lemma mem_set_keeps {V : Type} p k (v : V) d :
  Dict.mem p d = true -> Dict.mem p (Dict.set k v d) = true.
Proof.
  intros H. destruct (String.eqb_spec k p) as [->|Hne].
  - unfold Dict.mem. now rewrite get_set_eq.
  - now rewrite mem_set_ne.
Qed.

Lemma NoDup_map_same {A B : Type} (g : A -> B) l x y :
  NoDup (map g l) -> In x l -> In y l -> g x = g y -> x = y.
Proof.
  induction l as [|a l IH]; simpl; [contradiction|].
  intros Hnd. inversion Hnd as [|? ? Hnotin Hrest]; subst.
  intros [<-|Hx] [<-|Hy] Heq; auto.
  - destruct Hnotin. rewrite Heq. now apply in_map.
  - destruct Hnotin. rewrite <- Heq. now apply in_map.
Qed.

Lemma NoDup_map_del {V B : Type} (g : string * V -> B) k d :
  NoDup (map g d) -> NoDup (map g (Dict.del k d)).
Proof.
  induction d as [|[k' v'] d IH]; simpl; [auto|].
  intros Hnd. inversion Hnd as [|? ? Hnotin Hrest]; subst.
  destruct (String.eqb k k'); [auto|].
  simpl. constructor; [|auto].
  rewrite in_map_iff. intros (x & Hx & Hin).
  apply DictMore.In_del in Hin as [Hin _].
  apply Hnotin. rewrite <- Hx. now apply in_map.
Qed.

Lemma NoDup_map_set {V B : Type} (g : string * V -> B) k v d :
  NoDup (map g d) -> ~ In (g (k, v)) (map g d) -> NoDup (map g (Dict.set k v d)).
Proof.
  induction d as [|[k' v'] d IH]; simpl.
  - intros _ _. repeat constructor. intros [].
  - intros Hnd Hnew. inversion Hnd as [|? ? Hnotin Hrest]; subst.
    destruct (String.eqb k k'); simpl.
    + constructor; [tauto | exact Hrest].
    + constructor; [|apply IH; tauto].
      rewrite in_map_iff. intros (x & Hx & Hin).
      destruct (DictMore.In_set _ _ _ _ Hin) as [->|Hin'].
      * apply Hnew. left. now rewrite Hx.
      * apply Hnotin. rewrite <- Hx. now apply in_map.
Qed.

Lemma upload_keeps_consistent parse uuid4 candidates file_ w :
  consistent w -> consistent (snd (upload_ifc parse uuid4 candidates file_ w)).
Proof.
  intros (Hids & Hpaths & Hfiles).
  destruct (unused_name candidates ".ifc" (disk w)) as [tmp_path|e] eqn:Hname;
    [|rewrite (upload_no_name parse uuid4 candidates file_ w e Hname);
      now repeat split].
  pose proof (unused_name_fresh _ _ _ _ Hname) as Hfresh.
  destruct (parse (upload_content file_)) as [f|e] eqn:Hparse.
  - rewrite (upload_opened_state parse uuid4 candidates file_ w tmp_path f Hname Hparse).
    split; [|split]; simpl.
    + now apply DictMore.NoDup_keys_set.
    + apply NoDup_map_set; [exact Hpaths|]. simpl.
      rewrite in_map_iff. intros ([k entry] & Hpath & Hin). simpl in Hpath.
      pose proof (Hfiles k entry Hin) as Hmem. rewrite Hpath in Hmem.
      unfold Dict.mem in Hmem. now rewrite Hfresh in Hmem.
    + intros k entry Hin.
      destruct (DictMore.In_set _ _ _ _ Hin) as [[= -> ->]|Hin']; simpl.
      * unfold Dict.mem. now rewrite get_set_eq.
      * apply mem_set_keeps. exact (Hfiles k entry Hin').
  - rewrite (upload_rejected parse uuid4 candidates file_ w tmp_path e Hname Hparse).
    split; [|split]; simpl; [exact Hids | exact Hpaths |].
    intros k entry Hin. apply mem_set_keeps. exact (Hfiles k entry Hin).
Qed.

Lemma remove_keeps_consistent model_id w :
  consistent w -> consistent (snd (remove_model model_id w)).
Proof.
  intros (Hids & Hpaths & Hfiles).
  destruct (Dict.get model_id (ifc_files w)) as [entry|] eqn:Hentry;
    [|rewrite remove_unregistered by (now apply not_mem_get); now repeat split].
  destruct (Dict.get (path entry) (disk w)) as [node|] eqn:Hnode.
  - destruct (unlink_refused node) eqn:Hflag;
      [rewrite (remove_refused _ _ _ Hentry node Hnode Hflag); now repeat split|].
    rewrite (remove_unlinks _ _ _ Hentry node Hnode Hflag).
    split; [|split]; simpl.
    + now apply DictMore.NoDup_keys_del.
    + now apply NoDup_map_del.
    + intros k entry' Hin. apply DictMore.In_del in Hin as [Hin Hk]. simpl in Hk.
      pose proof (Hfiles k entry' Hin) as Hmem.
      unfold Dict.mem in *. rewrite get_del_ne; [exact Hmem|].
      intros Hsame. apply Hk.
      pose proof (NoDup_map_same (fun kv : string * ModelEntry => path (snd kv))
                    _ (model_id, entry) (k, entry') Hpaths
                    (get_In _ _ _ Hentry) Hin Hsame) as Heq.
      now injection Heq.
  - rewrite (remove_missing_file _ _ _ Hentry Hnode).
    split; [|split]; simpl.
    + now apply DictMore.NoDup_keys_del.
    + now apply NoDup_map_del.
    + intros k entry' Hin. apply DictMore.In_del in Hin as [Hin _].
      exact (Hfiles k entry' Hin).
Qed.

End Consistency.

(** X14. Uploads and removals keep the state consistent: from a
    state in which no identifier is registered twice, no two entries
    share a scratch file and every entry's scratch file is on disk,
    any sequence of requests leads to such a state again, and the
    listing never shows an identifier twice. *)
Theorem requests_keep_state_consistent :
  forall parse rs w,
    consistent w ->
    consistent (serve_all parse rs w)
    /\ NoDup (map item_model_id (listed (serve_all parse rs w))).
Proof.
  intros parse rs w Hw.
  assert (H : consistent (serve_all parse rs w)).
  { unfold serve_all. revert w Hw. induction rs as [|r rs IH]; intros w Hw; simpl.
    - exact Hw.
    - apply IH. destruct r as [uuid4 candidates file_|q|model_id|]; simpl.
      + now apply upload_keeps_consistent.
      + exact Hw.
      + now apply remove_keeps_consistent.
      + exact Hw. }
  split; [exact H|]. rewrite listed_ids. exact (proj1 H).
Qed.

Lemma requests_keep_state_consistent_witness :
  consistent
    (serve_all Sample.parse
       [Upload "u-1" ["a"] Sample.good_file; Upload "u-2" ["a"; "b"] Sample.bad_file;
        Upload "u-1" ["a"; "b"; "c"] Cases.second_file; Remove "u-1"; ListModels]
       Sample.blank).
Proof.
  apply (requests_keep_state_consistent Sample.parse
           [Upload "u-1" ["a"] Sample.good_file; Upload "u-2" ["a"; "b"] Sample.bad_file;
            Upload "u-1" ["a"; "b"; "c"] Cases.second_file; Remove "u-1"; ListModels]
           Sample.blank).
  split; [constructor | split; [constructor | intros k entry []]].
Defined.

(** ** Requests against different models *)

(** X15. The answer to a query depends on the model registered under
    its identifier and on nothing else: two states that register the
    same opened model there answer alike, whatever else they register,
    whatever file name they keep and whatever is on disk. *)
Theorem query_reads_only_its_model :
  forall request w1 w2,
    option_map file (Dict.get (model_id request) (ifc_files w1))
    = option_map file (Dict.get (model_id request) (ifc_files w2)) ->
    get_element_by_guid request w1 = get_element_by_guid request w2.
Proof.
  intros request w1 w2 Hsame.
  unfold get_element_by_guid, Dict.mem, Dict.subscript.
  destruct (Dict.get (model_id request) (ifc_files w1)) as [entry1|];
    destruct (Dict.get (model_id request) (ifc_files w2)) as [entry2|];
    simpl in Hsame; try discriminate; [|reflexivity].
  injection Hsame as Hfile. simpl. now rewrite Hfile.
Qed.

Lemma query_reads_only_its_model_witness :
  get_element_by_guid Sample.ask Cases.two_models
  = get_element_by_guid Sample.ask (Sample.holding Sample.wall []).
Proof.
  exact (query_reads_only_its_model Sample.ask Cases.two_models
           (Sample.holding Sample.wall []) eq_refl).
Defined.

Lemma upload_ok_opened parse uuid4 candidates file_ w body :
  fst (upload_ifc parse uuid4 candidates file_ w) = Ok200 body ->
  exists tmp_path f,
    unused_name candidates ".ifc" (disk w) = Ok tmp_path
    /\ parse (upload_content file_) = Ok f.
Proof.
  intros Hok.
  destruct (unused_name candidates ".ifc" (disk w)) as [tmp_path|e] eqn:Hname;
    [|rewrite (upload_no_name parse uuid4 candidates file_ w e Hname) in Hok;
      discriminate].
  destruct (parse (upload_content file_)) as [f|e] eqn:Hparse;
    [eauto|].
  rewrite (upload_rejected parse uuid4 candidates file_ w tmp_path e Hname Hparse)
    in Hok. discriminate.
Qed.

(** X16. Two uploads answered 200 under different identifiers give
    two entries with different scratch files, and removing the first
    is answered 200 and leaves the second registered with its scratch
    file on disk. *)
Theorem two_uploads_are_independent :
  forall parse uuid_a names_a file_a uuid_b names_b file_b w body_a body_b,
    fst (upload_ifc parse uuid_a names_a file_a w) = Ok200 body_a ->
    fst (upload_ifc parse uuid_b names_b file_b
           (snd (upload_ifc parse uuid_a names_a file_a w))) = Ok200 body_b ->
    uuid_a <> uuid_b ->
    exists entry_a entry_b,
      Dict.get uuid_a
        (ifc_files (snd (upload_ifc parse uuid_b names_b file_b
                           (snd (upload_ifc parse uuid_a names_a file_a w)))))
      = Some entry_a
      /\ Dict.get uuid_b
           (ifc_files (snd (upload_ifc parse uuid_b names_b file_b
                              (snd (upload_ifc parse uuid_a names_a file_a w)))))
         = Some entry_b
      /\ path entry_a <> path entry_b
      /\ fst (remove_model uuid_a
                (snd (upload_ifc parse uuid_b names_b file_b
                        (snd (upload_ifc parse uuid_a names_a file_a w)))))
         = removed
      /\ Dict.get uuid_b
           (ifc_files
              (snd (remove_model uuid_a
                      (snd (upload_ifc parse uuid_b names_b file_b
                              (snd (upload_ifc parse uuid_a names_a file_a w)))))))
         = Some entry_b
      /\ Dict.get (path entry_b)
           (disk
              (snd (remove_model uuid_a
                      (snd (upload_ifc parse uuid_b names_b file_b
                              (snd (upload_ifc parse uuid_a names_a file_a w)))))))
         = Some {| data := upload_content file_b; unlink_refused := false |}.
Proof.
  intros parse uuid_a names_a file_a uuid_b names_b file_b w body_a body_b
    Hok_a Hok_b Hne.
  destruct (upload_ok_opened _ _ _ _ _ _ Hok_a) as (path_a & f_a & Hname_a & Hparse_a).
  destruct (upload_ok_opened _ _ _ _ _ _ Hok_b) as (path_b & f_b & Hname_b & Hparse_b).
  rewrite (upload_opened_state parse uuid_b names_b file_b _ path_b f_b Hname_b Hparse_b).
  rewrite (upload_opened_state parse uuid_a names_a file_a w path_a f_a Hname_a Hparse_a)
    in *.
  simpl in Hname_b. pose proof (unused_name_fresh _ _ _ _ Hname_b) as Hfresh_b.
  assert (Hpaths : path_a <> path_b).
  { intros ->. rewrite DictFacts.get_set_eq in Hfresh_b. discriminate. }
  set (entry_a := {| file := f_a; path := path_a; filename := upload_filename file_a |}).
  set (entry_b := {| file := f_b; path := path_b; filename := upload_filename file_b |}).
  set (node_a := {| data := upload_content file_a; unlink_refused := false |}).
  set (node_b := {| data := upload_content file_b; unlink_refused := false |}).
  set (w2 := {| ifc_files := _; disk := _ |}).
  assert (Ha : Dict.get uuid_a (ifc_files w2) = Some entry_a).
  { simpl. rewrite DictFacts.get_set_ne by congruence. apply DictFacts.get_set_eq. }
  assert (Hfile_a : Dict.get (path entry_a) (disk w2) = Some node_a).
  { simpl. rewrite DictFacts.get_set_ne by congruence. apply DictFacts.get_set_eq. }
  exists entry_a, entry_b.
  split; [exact Ha|]. split; [apply DictFacts.get_set_eq|]. split; [exact Hpaths|].
  rewrite (remove_unlinks uuid_a w2 entry_a Ha node_a Hfile_a eq_refl). simpl.
  split; [reflexivity|]. split.
  - rewrite DictFacts.get_del_ne by congruence. apply DictFacts.get_set_eq.
  - rewrite DictFacts.get_del_ne by exact Hpaths. apply DictFacts.get_set_eq.
Qed.

Lemma two_uploads_are_independent_witness :
  exists entry_b,
    Dict.get "u-2"
      (ifc_files
         (snd (remove_model "u-1"
                 (snd (upload_ifc Sample.parse "u-2" ["a"; "b"] Sample.good_file
                         (snd (upload_ifc Sample.parse "u-1" ["a"; "b"]
                                 Sample.good_file Sample.blank)))))))
    = Some entry_b
    /\ path entry_b = "/tmp/tmpb.ifc".
Proof.
  destruct (two_uploads_are_independent Sample.parse
              "u-1" ["a"; "b"] Sample.good_file "u-2" ["a"; "b"] Sample.good_file
              Sample.blank _ _ eq_refl eq_refl ltac:(discriminate))
    as (entry_a & entry_b & _ & Hb & _ & _ & Hkept & _).
  exists entry_b. split; [exact Hkept|].
  injection Hb as <-. reflexivity.
Defined.
